(** * A shallow embedding of the DOM polyfill and of the notebook serializer

  The development follows the two source files it verifies:

  - the DOM polyfill ([enhanceElement], the global [document] patch, the
    css-select adapter [xmldomAdapter] and the [DOMParser] subclass);
  - the notebook serializer (its own copy of [xmldomAdapter], [DOMParserEx]
    and [NotebookKitSerializer]).

  The libraries the code calls (xmldom's node tree, css-select's selector
  engine, notebook-kit's [deserialize], [TextDecoder]) are not part of the
  repository: the node tree is modelled by a small inductive type with
  xmldom's attribute operations, the others are section variables. *)

From Stdlib Require Import String Ascii List ZArith Bool Lia DecimalString.
From Equations Require Import Equations.

Set Warnings "-register-all".
Set Equations Transparent.
Import ListNotations.

Local Open Scope list_scope.
Local Open Scope string_scope.

(* ================================================================== *)
(** ** JavaScript values, exceptions and the console                   *)
(* ================================================================== *)

Module Js.

(** The values that are assigned to properties in the modelled code.
    Numbers are restricted to integers (their [String] is the decimal
    numeral). *)
Inductive value : Type :=
| undefined
| null
| boolean (b : bool)
| number (z : Z)
| str (s : string).

(** [v == null]: true for [null] and for [undefined]. *)
Definition loosely_null (v : value) : bool :=
  match v with
  | undefined | null => true
  | _ => false
  end.

(** [String(v)]. *)
Definition String_ (v : value) : string :=
  match v with
  | undefined => "undefined"
  | null => "null"
  | boolean true => "true"
  | boolean false => "false"
  | number z => NilZero.string_of_int (Z.to_int z)
  | str s => s
  end.

(** Truthiness of a string: only the empty string is falsy. *)
Definition truthy_string (s : string) : bool :=
  match s with
  | EmptyString => false
  | String _ _ => true
  end.

(** Truthiness of [x], a string or [null] ([None]). *)
Definition truthy (x : option string) : bool :=
  match x with
  | Some s => truthy_string s
  | None => false
  end.

(** [x || <empty string>] where [x] is a string or [null] ([None]). *)
Definition or_empty (x : option string) : string :=
  match x with
  | Some s => if truthy_string s then s else EmptyString
  | None => EmptyString
  end.

(** [x || undefined] where [x] is a string or [null]; [None] in the
    result is [undefined]. *)
Definition or_undefined (x : option string) : option string :=
  match x with
  | Some s => if truthy_string s then Some s else None
  | None => None
  end.

(** [s.toLowerCase()] on ASCII letters. *)
Definition lower_ascii (c : ascii) : ascii :=
  let n := nat_of_ascii c in
  if andb (Nat.leb 65 n) (Nat.leb n 90) then ascii_of_nat (n + 32) else c.

Fixpoint toLowerCase (s : string) : string :=
  match s with
  | EmptyString => EmptyString
  | String c r => String (lower_ascii c) (toLowerCase r)
  end.

(** [s.replace(/c/g, by)] for a one-character pattern. *)
Fixpoint replace_all (c : ascii) (by_ : string) (s : string) : string :=
  match s with
  | EmptyString => EmptyString
  | String d r =>
      if Ascii.eqb d c then by_ ++ replace_all c by_ r
      else String d (replace_all c by_ r)
  end.

(** [s.startsWith(p)], the test [includes] repeats at every position. *)
Fixpoint startsWith (s p : string) : bool :=
  match p, s with
  | EmptyString, _ => true
  | String _ _, EmptyString => false
  | String a p', String b s' => andb (Ascii.eqb a b) (startsWith s' p')
  end.

(** [s.includes(needle)]. *)
Fixpoint includes (s needle : string) : bool :=
  if startsWith s needle then true
  else match s with
       | EmptyString => false
       | String _ s' => includes s' needle
       end.

(** [array.filter((x, i) => f(i, x))] and [array.some((x, j) => f(j, x))];
    the callbacks receive the index, counted from [i]. *)
Fixpoint filter_from {A : Type} (f : nat -> A -> bool) (i : nat) (l : list A)
  : list A :=
  match l with
  | [] => []
  | x :: r => if f i x then x :: filter_from f (S i) r else filter_from f (S i) r
  end.

Fixpoint some_from {A : Type} (f : nat -> A -> bool) (i : nat) (l : list A)
  : bool :=
  match l with
  | [] => false
  | x :: r => if f i x then true else some_from f (S i) r
  end.

Definition array_filter {A : Type} (f : nat -> A -> bool) (l : list A) : list A :=
  filter_from f 0 l.

Definition array_some {A : Type} (f : nat -> A -> bool) (l : list A) : bool :=
  some_from f 0 l.

(** An exception value. *)
Inductive error : Type :=
| Error (message : string).

(** The result of running a piece of code: a value or a thrown error. *)
Inductive outcome (A : Type) : Type :=
| Ret (a : A)
| Throw (e : error).
Arguments Ret {A} a.
Arguments Throw {A} e.

(** The rest of a [try] body after a call that may throw. *)
Definition and_then {A B : Type} (r : outcome A) (k : A -> B) : outcome B :=
  match r with
  | Ret a => Ret (k a)
  | Throw e => Throw e
  end.

(** [x || null] where [x] is an object, [null] or [undefined]. *)
Definition or_null {A : Type} (x : option A) : option A :=
  match x with
  | Some a => Some a
  | None => None
  end.

(** One [console.error(label, error)] call. *)
Record log_line : Type := LogLine { label : string; logged : error }.

(** [try { body } catch (error) { console.error(label, error); return
    fallback; }]: the value returned and the lines written. *)
Definition try_catch_log {A : Type} (body : outcome A) (label_ : string)
           (fallback : A) : outcome A * list log_line :=
  match body with
  | Ret a => (Ret a, [])
  | Throw e => (Ret fallback, [LogLine label_ e])
  end.

(** The settlement of the promise an [async] function returns. *)
Inductive promise (A : Type) : Type :=
| Resolved (a : A)
| Rejected (e : error).
Arguments Resolved {A} a.
Arguments Rejected {A} e.

End Js.

(* ================================================================== *)
(** ** The node tree of the underlying DOM library                      *)
(* ================================================================== *)

Module Dom.

(** The accessors [enhanceElement] installs on an element instance with
    [Object.defineProperty]. *)
Inductive descriptor : Type :=
| SyncedAttribute (prop : string)
| TextContentAccessor
| InnerHTMLGetter
| OuterHTMLGetter.

(** The leaf kinds other than text, with their [nodeType]. *)
Inductive leaf_kind : Type :=
| CDataSection
| ProcessingInstruction
| Comment.

Definition leaf_nodeType (k : leaf_kind) : Z :=
  match k with
  | CDataSection => 4
  | ProcessingInstruction => 7
  | Comment => 8
  end.

(** A node. An element carries its attributes in document order, its
    children, and the table of own accessor properties defined on the
    instance. *)
Inductive Node : Type :=
| Element (nodeName : string) (attributes : list (string * string))
          (children : list Node) (own : list (string * descriptor))
| Text (data : string)
| CharacterData (kind : leaf_kind) (data : string)
| Document (children : list Node).

Definition nodeType (n : Node) : Z :=
  match n with
  | Element _ _ _ _ => 1
  | Text _ => 3
  | CharacterData k _ => leaf_nodeType k
  | Document _ => 9
  end.

(** [node.nodeValue]: the data of a leaf, [null] otherwise. *)
Definition nodeValue (n : Node) : option string :=
  match n with
  | Text d | CharacterData _ d => Some d
  | _ => None
  end.

(** [node.childNodes]: [null] ([None]) on leaves. *)
Definition childNodes (n : Node) : option (list Node) :=
  match n with
  | Element _ _ cs _ | Document cs => Some cs
  | _ => None
  end.

Definition is_element (n : Node) : bool :=
  match n with
  | Element _ _ _ _ => true
  | _ => false
  end.

(** *** Attributes *)

Fixpoint attr_lookup (name : string) (attrs : list (string * string))
  : option string :=
  match attrs with
  | [] => None
  | (k, v) :: rest => if String.eqb k name then Some v else attr_lookup name rest
  end.

(** Replace the value in place when the name is there, append if not. *)
Fixpoint attr_store (name value : string) (attrs : list (string * string))
  : list (string * string) :=
  match attrs with
  | [] => [(name, value)]
  | (k, v) :: rest =>
      if String.eqb k name then (k, value) :: rest
      else (k, v) :: attr_store name value rest
  end.

Fixpoint attr_remove (name : string) (attrs : list (string * string))
  : list (string * string) :=
  match attrs with
  | [] => []
  | (k, v) :: rest =>
      if String.eqb k name then attr_remove name rest
      else (k, v) :: attr_remove name rest
  end.

(** [elem.getAttribute(name)]: the value, or [null] ([None]) when the
    element has no such attribute, which is what the polyfill's test
    [value === null] expects. Only elements have the method
    ([typeof elem.getAttribute] is ["function"] exactly on them). *)
Definition has_getAttribute (n : Node) : bool := is_element n.

Definition getAttribute (n : Node) (name : string) : option string :=
  match n with
  | Element _ attrs _ _ => attr_lookup name attrs
  | _ => None
  end.

Definition hasAttribute (n : Node) (name : string) : bool :=
  match getAttribute n name with
  | Some _ => true
  | None => false
  end.

Definition setAttribute (n : Node) (name value : string) : Node :=
  match n with
  | Element t attrs cs own => Element t (attr_store name value attrs) cs own
  | _ => n
  end.

Definition removeAttribute (n : Node) (name : string) : Node :=
  match n with
  | Element t attrs cs own => Element t (attr_remove name attrs) cs own
  | _ => n
  end.

(** *** Children *)

Definition firstChild (n : Node) : option Node :=
  match childNodes n with
  | Some (c :: _) => Some c
  | _ => None
  end.

(** [this.removeChild(this.firstChild)]: values carry no identity, so the
    child to remove is the one at the head of the list. *)
Definition removeFirstChild (n : Node) : Node :=
  match n with
  | Element t attrs cs own => Element t attrs (tl cs) own
  | Document cs => Document (tl cs)
  | _ => n
  end.

Definition appendChild (n child : Node) : Node :=
  match n with
  | Element t attrs cs own => Element t attrs (cs ++ [child])%list own
  | Document cs => Document (cs ++ [child])%list
  | _ => n
  end.

Definition child_count (n : Node) : nat :=
  match childNodes n with
  | Some cs => length cs
  | None => 0
  end.

(** *** Own accessor properties *)

Fixpoint own_lookup (name : string) (own : list (string * descriptor))
  : option descriptor :=
  match own with
  | [] => None
  | (k, d) :: rest => if String.eqb k name then Some d else own_lookup name rest
  end.

(** [Object.getOwnPropertyDescriptor(element, name)]. *)
Definition getOwnPropertyDescriptor (n : Node) (name : string)
  : option descriptor :=
  match n with
  | Element _ _ _ own => own_lookup name own
  | _ => None
  end.

(** [Object.defineProperty(element, name, d)] with [configurable: true]:
    a later definition replaces an earlier one. *)
Definition defineProperty (n : Node) (name : string) (d : descriptor) : Node :=
  match n with
  | Element t attrs cs own => Element t attrs cs ((name, d) :: own)
  | _ => n
  end.

(** The library's own [textContent] accessor (on the prototype): for an
    element the data of its descendants, processing instructions and
    comments left out; the node value for every other kind. *)
Fixpoint native_textContent (n : Node) : option string :=
  match n with
  | Element _ _ cs _ =>
      Some ((fix join (cs : list Node) : string :=
               match cs with
               | [] => EmptyString
               | child :: rest =>
                   (match child with
                    | CharacterData ProcessingInstruction _
                    | CharacterData Comment _ => EmptyString
                    | _ => match native_textContent child with
                           | Some t => t
                           | None => EmptyString
                           end
                    end) ++ join rest
               end) cs)
  | Text d | CharacterData _ d => Some d
  | Document _ => None
  end.

(** The document's own [createElement] and [createTextNode]. *)
Definition origCreateElement (name : string) : Node := Element name [] [] [].
Definition origCreateTextNode (data : string) : Node := Text data.

(** [doc.documentElement]: the first element child of the document. *)
Definition documentElement (doc : Node) : option Node :=
  match doc with
  | Document cs => find is_element cs
  | _ => None
  end.

End Dom.

(* ================================================================== *)
(** ** The DOM polyfill                                                 *)
(* ================================================================== *)

Module Polyfill.
Import Dom.

(** *** [enhanceElement] *)

(** The list [enhanceElement] builds: ["id"], and ["type"] pushed after it
    for a script element. *)
Definition syncProperties (tagName : string) : list string :=
  let lowerTagName := Js.toLowerCase tagName in
  if String.eqb lowerTagName "script" then (["id"] ++ ["type"])%list else ["id"].

(** The getter and the setter of a synced property. *)
Definition synced_get (prop : string) (this : Node) : string :=
  Js.or_empty (getAttribute this prop).

Definition synced_set (prop : string) (this : Node) (value : Js.value) : Node :=
  if negb (Js.loosely_null value) then setAttribute this prop (Js.String_ value)
  else removeAttribute this prop.

(** [node.textContent]: the accessor [enhanceElement] installed when the
    instance has one, the library's otherwise. The installed getter adds
    the value of each text child and the [textContent] of each element
    child to [text], in child order. *)
Fixpoint textContent (n : Node) : option string :=
  match n with
  | Element _ _ cs own =>
      match own_lookup "textContent" own with
      | Some TextContentAccessor =>
          Some ((fix loop (text : string) (cs : list Node) : string :=
                   match cs with
                   | [] => text
                   | child :: rest =>
                       loop (match child with
                             | Text d => text ++ Js.or_empty (Some d)
                             | Element _ _ _ _ => text ++ Js.or_empty (textContent child)
                             | _ => text
                             end) rest
                   end) EmptyString cs)
      | _ => native_textContent n
      end
  | _ => native_textContent n
  end.

(** The getter on its own, as the descriptor has it. *)
Definition textContent_get (this : Node) : string :=
  match childNodes this with
  | Some cs =>
      (fix loop (text : string) (cs : list Node) : string :=
         match cs with
         | [] => text
         | child :: rest =>
             loop (if Z.eqb (nodeType child) 3 then text ++ Js.or_empty (nodeValue child)
                   else if Z.eqb (nodeType child) 1 then text ++ Js.or_empty (textContent child)
                   else text) rest
         end) EmptyString cs
  | None => EmptyString
  end.

(** A value together with the equation that names it, for the loop test. *)
Definition inspect {A : Type} (a : A) : {b : A | a = b} := exist _ a eq_refl.

(** [while (this.firstChild) this.removeChild(this.firstChild)]. *)
Equations remove_children (this : Node) : Node by wf (child_count this) lt :=
remove_children this with inspect (firstChild this) := {
  | exist _ (Some _) _ => remove_children (removeFirstChild this)
  | exist _ None _ => this }.
Next Obligation.
  destruct this as [t a cs o| | |cs]; simpl in *; try discriminate;
    destruct cs; simpl in *; try discriminate; unfold child_count; simpl; lia.
Qed.

(** The patched [document.createTextNode]. *)
Definition createTextNode (data : option string) : Node :=
  origCreateTextNode (Js.or_empty data).

(** The setter: every child removed, then one text node appended unless
    the value is [null] or [undefined]. *)
Definition textContent_set (this : Node) (value : Js.value) : Node :=
  let cleared := remove_children this in
  if negb (Js.loosely_null value)
  then appendChild cleared (createTextNode (Some (Js.String_ value)))
  else cleared.

Section Serialization.

(** [node.toString()], the library's serializer. *)
Variable toString : Node -> string.

(** The text of a text child, escaped for HTML. *)
Definition escape_text (text : string) : string :=
  Js.replace_all ">" "&gt;"
    (Js.replace_all "<" "&lt;"
       (Js.replace_all "&" "&amp;" text)).

(** The [innerHTML] getter. *)
Definition innerHTML_get (this : Node) : string :=
  match childNodes this with
  | Some cs =>
      (fix loop (html : string) (cs : list Node) : string :=
         match cs with
         | [] => html
         | child :: rest =>
             loop (if Z.eqb (nodeType child) 1 then html ++ toString child
                   else if Z.eqb (nodeType child) 3
                        then html ++ escape_text (Js.or_empty (nodeValue child))
                        else html) rest
         end) EmptyString cs
  | None => EmptyString
  end.

Definition outerHTML_get (this : Node) : string := toString this.

(** Reading [element.name] through the accessor defined on the instance;
    [None] when the instance has no own accessor of that name. *)
Definition descriptor_get (d : descriptor) (this : Node) : Js.value :=
  match d with
  | SyncedAttribute prop => Js.str (synced_get prop this)
  | TextContentAccessor => Js.str (textContent_get this)
  | InnerHTMLGetter => Js.str (innerHTML_get this)
  | OuterHTMLGetter => Js.str (outerHTML_get this)
  end.

Definition get_property (this : Node) (name : string) : option Js.value :=
  match getOwnPropertyDescriptor this name with
  | Some d => Some (descriptor_get d this)
  | None => None
  end.

End Serialization.

(** Assigning [element.name = value] through the accessor defined on the
    instance; [None] when there is no own accessor of that name or it has
    no setter. *)
Definition descriptor_set (d : descriptor) (this : Node) (value : Js.value)
  : option Node :=
  match d with
  | SyncedAttribute prop => Some (synced_set prop this value)
  | TextContentAccessor => Some (textContent_set this value)
  | InnerHTMLGetter | OuterHTMLGetter => None
  end.

Definition set_property (this : Node) (name : string) (value : Js.value)
  : option Node :=
  match getOwnPropertyDescriptor this name with
  | Some d => descriptor_set d this value
  | None => None
  end.

Definition enhanceElement (element : Node) (tagName : string) : Node :=
  let synced :=
    fold_left (fun el prop => defineProperty el prop (SyncedAttribute prop))
              (syncProperties tagName) element in
  let with_text :=
    if andb (negb (Js.truthy (textContent element)))
            (match getOwnPropertyDescriptor element "textContent" with
             | None => true
             | Some _ => false
             end)
    then defineProperty synced "textContent" TextContentAccessor
    else synced in
  let with_inner := defineProperty with_text "innerHTML" InnerHTMLGetter in
  defineProperty with_inner "outerHTML" OuterHTMLGetter.

(** The patched [document.createElement]. *)
Definition createElement (name : string) : Node :=
  enhanceElement (origCreateElement name) name.

(** *** The selector engine's view of the tree *)

(** The callbacks of the adapter that work on the node itself. *)
Record Adapter : Type := {
  isTag : Node -> bool;
  getAttributeValue : Node -> string -> option string;
  getChildren : Node -> list Node;
  getName : Node -> string;
  getText : Node -> string;
  hasAttrib : Node -> string -> bool
}.

(** [node.nodeName]. The name of a processing instruction is its target,
    which the model does not keep. *)
Definition nodeName (n : Node) : string :=
  match n with
  | Element t _ _ _ => t
  | Text _ => "#text"
  | CharacterData CDataSection _ => "#cdata-section"
  | CharacterData Comment _ => "#comment"
  | CharacterData ProcessingInstruction _ => EmptyString
  | Document _ => "#document"
  end.

Definition adapter_isTag (node : Node) : bool := Z.eqb (nodeType node) 1.

(** [undefined] is [None]. *)
Definition adapter_getAttributeValue (elem : Node) (name : string)
  : option string :=
  if negb (has_getAttribute elem) then None
  else let value := getAttribute elem name in
       match value with
       | None => None
       | Some v => Some v
       end.

Definition adapter_getChildren (node : Node) : list Node :=
  match childNodes node with
  | None => []
  | Some cs =>
      fold_left (fun children child =>
                   if Z.eqb (nodeType child) 1 then (children ++ [child])%list
                   else children) cs []
  end.

Definition adapter_getName (elem : Node) : string :=
  if Js.truthy_string (nodeName elem) then Js.toLowerCase (nodeName elem) else EmptyString.

Definition adapter_getText (node : Node) : string :=
  match textContent node with
  | Some t => t
  | None =>
      if Z.eqb (nodeType node) 3 then Js.or_empty (nodeValue node)
      else match childNodes node with
           | Some cs =>
               fold_left (fun text child =>
                            if Z.eqb (nodeType child) 3
                            then text ++ Js.or_empty (nodeValue child)
                            else text) cs EmptyString
           | None => EmptyString
           end
  end.

Definition adapter_hasAttrib (elem : Node) (name : string) : bool :=
  if negb (is_element elem) then false else hasAttribute elem name.

Definition xmldomAdapter : Adapter := {|
  isTag := adapter_isTag;
  getAttributeValue := adapter_getAttributeValue;
  getChildren := adapter_getChildren;
  getName := adapter_getName;
  getText := adapter_getText;
  hasAttrib := adapter_hasAttrib
|}.

(** [removeSubsets] compares node objects, so it is stated over node
    handles [N]; [contains_method other] is [other.contains] when that is
    a function. The entries of [nodes] are objects, never [null]. *)
Section Subsets.
Context {N : Type}.
Variable contains_method : N -> option (N -> bool).

Definition removeSubsets (nodes : list N) : list N :=
  Js.array_filter
    (fun i node =>
       negb (Js.array_some
               (fun j other =>
                  andb (negb (Nat.eqb i j))
                       (match contains_method other with
                        | Some contains => contains node
                        | None => false
                        end))
               nodes))
    nodes.

End Subsets.

(** *** The sequence [querySelectorAll] returns *)

Inductive item_method : Type :=
| ItemOfResults      (* item(index) { return results[index] || null; } *)
| ItemAlwaysNull.    (* item: () => null *)

Inductive forEach_method : Type :=
| ForEachOverResults (* the loop calling the callback on results[i], i *)
| ForEachNothing.    (* forEach: () => { } *)

(** An array together with the methods [Object.assign] put on it; a
    plain array has neither. *)
Record NodeList : Type := {
  entries : list Node;
  own_item : option item_method;
  own_forEach : option forEach_method
}.

Definition plain_array (results : list Node) : NodeList :=
  {| entries := results; own_item := None; own_forEach := None |}.

(** [list[index]]; [None] is [undefined]. *)
Definition at_index (l : NodeList) (index : Z) : option Node :=
  if Z.ltb index 0 then None else nth_error (entries l) (Z.to_nat index).

(** [list.item(index)]: a [TypeError] when the array has no such method. *)
Definition call_item (l : NodeList) (index : Z) : Js.outcome (option Node) :=
  match own_item l with
  | Some ItemOfResults => Js.Ret (Js.or_null (at_index l index))
  | Some ItemAlwaysNull => Js.Ret None
  | None => Js.Throw (Js.Error "list.item is not a function")
  end.

(** The calls [list.forEach(callback)] makes, as the (value, index) pairs
    handed to the callback; without an own method it is
    [Array.prototype.forEach]. *)
Definition indexed (results : list Node) : list (Node * nat) :=
  combine results (seq 0 (length results)).

Definition call_forEach (l : NodeList) : list (Node * nat) :=
  match own_forEach l with
  | Some ForEachOverResults => indexed (entries l)
  | Some ForEachNothing => []
  | None => indexed (entries l)
  end.

(** *** [querySelector] and [querySelectorAll] *)

(** The document a parser returns, with the two closures put on it. *)
Record ParsedDocument : Type := {
  parsed : Node;
  querySelector : string -> Js.outcome (option Node) * list Js.log_line;
  querySelectorAll : string -> Js.outcome NodeList * list Js.log_line
}.

Section Queries.

(** The selector engine: [selectOne] and [selectAll] of css-select. *)
Variable selectOne : Adapter -> string -> Node -> Js.outcome (option Node).
Variable selectAll : Adapter -> string -> Node -> Js.outcome (list Node).


Definition document_querySelectorAll (this : Node) (selector : string)
  : Js.outcome NodeList * list Js.log_line :=
  Js.try_catch_log
    (Js.and_then (selectAll xmldomAdapter selector this)
                 (fun results =>
                    {| entries := results;
                       own_item := Some ItemOfResults;
                       own_forEach := Some ForEachOverResults |}))
    "Error in document.querySelectorAll:"
    {| entries := [];
       own_item := Some ItemAlwaysNull;
       own_forEach := Some ForEachNothing |}.

(** [doc.documentElement || doc]. *)
Definition rootElement (doc : Node) : Node :=
  match documentElement doc with
  | Some e => e
  | None => doc
  end.

(** The library's parser, [super.parseFromString]. *)
Variable base_parseFromString : string -> string -> Node.

Definition parseFromString (data contentType : string) : ParsedDocument :=
  let doc := base_parseFromString data contentType in
  {| parsed := doc;
     querySelector := fun selector =>
       Js.try_catch_log
         (Js.and_then (selectOne xmldomAdapter selector (rootElement doc))
                      (fun result => Js.or_null result))
         "Error in querySelector:" None;
     querySelectorAll := fun selector =>
       Js.try_catch_log
         (Js.and_then (selectAll xmldomAdapter selector (rootElement doc))
                      (fun results =>
                         {| entries := results;
                            own_item := Some ItemOfResults;
                            own_forEach := Some ForEachOverResults |}))
         "Error in querySelectorAll:"
         {| entries := [];
            own_item := Some ItemAlwaysNull;
            own_forEach := Some ForEachNothing |} |}.

End Queries.

End Polyfill.

(* ================================================================== *)
(** ** The notebook serializer                                          *)
(* ================================================================== *)

Module Serializer.
Import Dom.

(** *** The serializer's own adapter *)

Definition adapter_isTag (node : Node) : bool := Z.eqb (nodeType node) 1.

Definition adapter_getAttributeValue (elem : Node) (name : string)
  : option string :=
  Js.or_undefined (getAttribute elem name).

(** [Array.from(node.childNodes || [])]. *)
Definition adapter_getChildren (node : Node) : list Node :=
  match childNodes node with
  | Some cs => cs
  | None => []
  end.

Definition adapter_getName (elem : Node) : string :=
  Js.or_empty (Some (Js.toLowerCase (Polyfill.nodeName elem))).

Definition adapter_getText (node : Node) : string :=
  Js.or_empty (Polyfill.textContent node).

Definition adapter_hasAttrib (elem : Node) (name : string) : bool :=
  hasAttribute elem name.

Definition xmldomAdapter : Polyfill.Adapter := {|
  Polyfill.isTag := adapter_isTag;
  Polyfill.getAttributeValue := adapter_getAttributeValue;
  Polyfill.getChildren := adapter_getChildren;
  Polyfill.getName := adapter_getName;
  Polyfill.getText := adapter_getText;
  Polyfill.hasAttrib := adapter_hasAttrib
|}.

Section Subsets.
Context {N : Type}.
Variable contains_method : N -> option (N -> bool).

Definition removeSubsets (nodes : list N) : list N :=
  Js.array_filter
    (fun i node =>
       negb (Js.array_some
               (fun j other =>
                  andb (negb (Nat.eqb i j))
                       (match contains_method other with
                        | Some contains => contains node
                        | None => false
                        end))
               nodes))
    nodes.

End Subsets.

(** *** [DOMParserEx] *)

Section Parser.

Variable selectOne : Polyfill.Adapter -> string -> Node -> Js.outcome (option Node).
Variable selectAll : Polyfill.Adapter -> string -> Node -> Js.outcome (list Node).
Variable base_parseFromString : string -> string -> Node.

(** The closures of the polyfill's parser are replaced by the two defined
    here; [querySelectorAll] hands back the engine's array as it is. *)
Definition parseFromString (data contentType : string) : Polyfill.ParsedDocument :=
  let doc :=
    Polyfill.parseFromString selectOne selectAll base_parseFromString
                             data contentType in
  let node := Polyfill.parsed doc in
  {| Polyfill.parsed := node;
     Polyfill.querySelector := fun selector =>
       Js.try_catch_log
         (Js.and_then (selectOne xmldomAdapter selector (Polyfill.rootElement node))
                      (fun result => Js.or_null result))
         "Error in querySelector:" None;
     Polyfill.querySelectorAll := fun selector =>
       Js.try_catch_log
         (Js.and_then (selectAll xmldomAdapter selector (Polyfill.rootElement node))
                      (fun results => Polyfill.plain_array results))
         "Error in querySelectorAll:"
         (Polyfill.plain_array []) |}.

End Parser.

(** *** [NotebookKitSerializer] *)

(** A cell of the notebook library; [cell_pinned] may be missing
    ([undefined]) or [null]. [cell_rest] holds the other own properties. *)
Record Cell : Type := {
  cell_id : Z;
  cell_value : string;
  cell_mode : string;
  cell_pinned : Js.value;
  cell_rest : list (string * Js.value)
}.

Record Notebook : Type := {
  title : string;
  theme : string;
  readOnly : bool;
  cells : list Cell
}.

Inductive NotebookCellKind : Type :=
| Markup
| Code.

Record NotebookCellData : Type := {
  kind : NotebookCellKind;
  value : string;
  languageId : string;
  metadata : Cell
}.

Record NotebookData : Type := {
  data_cells : list NotebookCellData;
  data_metadata : Notebook
}.

Definition OBSERVABLE_TO_VSCODE_MODE_MAP : list (string * string) :=
  [ ("md", "markdown"); ("js", "javascript"); ("ojs", "ojs"); ("html", "html");
    ("tex", "tex"); ("sql", "sql"); ("dot", "dot") ].

Fixpoint map_lookup (key : string) (m : list (string * string)) : option string :=
  match m with
  | [] => None
  | (k, v) :: rest => if String.eqb k key then Some v else map_lookup key rest
  end.

Definition isObservableKitFormat (content : string) : bool :=
  andb (Js.includes content "<notebook") (Js.includes content "<!doctype html>").

(** The body of the loop over [notebook.cells]. *)
Definition cell_data (cell : Cell) : NotebookCellData :=
  let cellKind := if String.eqb (cell_mode cell) "md" then Markup else Code in
  let language :=
    match map_lookup (cell_mode cell) OBSERVABLE_TO_VSCODE_MODE_MAP with
    | Some l => if Js.truthy_string l then l else "javascript"
    | None => "javascript"
    end in
  let metadata := cell in
  let metadata :=
    match cell_pinned metadata with
    | Js.undefined | Js.null =>
        {| cell_id := cell_id metadata;
           cell_value := cell_value metadata;
           cell_mode := cell_mode metadata;
           cell_pinned := Js.boolean false;
           cell_rest := cell_rest metadata |}
    | _ => metadata
    end in
  {| kind := cellKind;
     value := cell_value cell;
     languageId := language;
     metadata := metadata |}.

Section Notebooks.

(** [deserialize] of the notebook library, given the parser to use, and
    [TextDecoder.decode]. *)
Variable deserialize :
  (string -> string -> Polyfill.ParsedDocument) -> string -> Js.outcome Notebook.
Variable decode : list Byte.byte -> string.
Variable selectOne : Polyfill.Adapter -> string -> Node -> Js.outcome (option Node).
Variable selectAll : Polyfill.Adapter -> string -> Node -> Js.outcome (list Node).
Variable base_parseFromString : string -> string -> Node.

Definition deserializeObservableKitNotebook (content : string)
  : Js.outcome NotebookData :=
  let parser := parseFromString selectOne selectAll base_parseFromString in
  Js.and_then (deserialize parser content)
    (fun notebook =>
       let cells :=
         fold_left (fun cells cell => (cells ++ [cell_data cell])%list)
                   (cells notebook) [] in
       {| data_cells := cells; data_metadata := notebook |}).

(** [None] is [undefined]: the function ends without a [return] when the
    content is not in the notebook format. *)
Definition deserializeNotebook (content : list Byte.byte)
  : Js.promise (option NotebookData) :=
  let contentStr := decode content in
  if isObservableKitFormat contentStr
  then match deserializeObservableKitNotebook contentStr with
       | Js.Ret data => Js.Resolved (Some data)
       | Js.Throw e => Js.Rejected e
       end
  else Js.Resolved None.

End Notebooks.

End Serializer.

(* ================================================================== *)
(** ** Node objects of one tree, for the operations that compare them    *)
(* ================================================================== *)

Module Tree.

Section Ancestry.
Context {N : Type}.

(** [node.parentNode]; [None] at the root. *)
Variable parentNode : N -> option N.

(** [ancestor a n]: [a] is reached from [n] by one or more [parentNode]
    steps, that is, [n] is a descendant of [a]. *)
Inductive ancestor : N -> N -> Prop :=
| ancestor_parent (a n : N) : parentNode n = Some a -> ancestor a n
| ancestor_step (a p n : N) :
    parentNode n = Some p -> ancestor a p -> ancestor a n.

(** The DOM's [other.contains(node)]: [node] is [other] or one of its
    descendants. *)
Definition standard_contains (contains_method : N -> option (N -> bool))
           (other : N) : Prop :=
  exists contains : N -> bool,
    contains_method other = Some contains /\
    forall node, contains node = true <-> (node = other \/ ancestor other node).

End Ancestry.

(** A concrete tree: a node is named by its position, the index among
    its siblings followed by the position of its parent; the root is
    the empty position. *)
Definition Position : Type := list nat.

Definition parentNode (p : Position) : option Position :=
  match p with
  | [] => None
  | _ :: up => Some up
  end.

Fixpoint same_position (p q : Position) : bool :=
  match p, q with
  | [], [] => true
  | i :: p', j :: q' => andb (Nat.eqb i j) (same_position p' q')
  | _, _ => false
  end.

(** [this.contains(other)], climbing from [other] to the root. *)
Fixpoint contains (this other : Position) : bool :=
  if same_position this other then true
  else match other with
       | [] => false
       | _ :: up => contains this up
       end.

Definition contains_method (other : Position) : option (Position -> bool) :=
  Some (contains other).

End Tree.

(* ================================================================== *)
(** ** What the specification says, in the terms of the model           *)
(* ================================================================== *)

Module Spec.
Import Dom.

(** [E] is an element on which [enhanceElement] defined [P] as a synced
    property. *)
Definition SyncedOn (E : Node) (P : string) : Prop :=
  is_element E = true /\
  getOwnPropertyDescriptor E P = Some (SyncedAttribute P).

(** [E] is an element whose [textContent] accessor was installed by
    [enhanceElement]. *)
Definition TextContentOn (E : Node) : Prop :=
  is_element E = true /\
  getOwnPropertyDescriptor E "textContent" = Some TextContentAccessor.

(** [E] is an element with the [innerHTML] getter of [enhanceElement]. *)
Definition InnerHTMLOn (E : Node) : Prop :=
  is_element E = true /\
  getOwnPropertyDescriptor E "innerHTML" = Some InnerHTMLGetter.

(** Escaping one character at a time: the three characters and nothing
    else. *)
Definition escape_char (c : ascii) : string :=
  if Ascii.eqb c "&" then "&amp;"
  else if Ascii.eqb c "<" then "&lt;"
  else if Ascii.eqb c ">" then "&gt;"
  else String c EmptyString.

Fixpoint escape (s : string) : string :=
  match s with
  | EmptyString => EmptyString
  | String c r => escape_char c ++ escape r
  end.

(** What a child contributes to [innerHTML]. *)
Definition child_html (toString : Node -> string) (child : Node) : string :=
  match child with
  | Element _ _ _ _ => toString child
  | Text d => escape d
  | _ => EmptyString
  end.

Fixpoint concat_all (l : list string) : string :=
  match l with
  | [] => EmptyString
  | s :: r => s ++ concat_all r
  end.

(** [needle] occurs in [hay]. *)
Definition Substring (needle hay : string) : Prop :=
  exists before after : string, hay = before ++ needle ++ after.

(** The elements of the subtree of [n], [n] first, in document order. *)
Fixpoint subtree_elements (n : Node) : list Node :=
  match n with
  | Element _ _ cs _ =>
      n :: (fix each (cs : list Node) : list Node :=
              match cs with
              | [] => []
              | c :: r => (subtree_elements c ++ each r)%list
              end) cs
  | Document cs =>
      (fix each (cs : list Node) : list Node :=
         match cs with
         | [] => []
         | c :: r => (subtree_elements c ++ each r)%list
         end) cs
  | _ => []
  end.

(** The elements a query rooted at [root] ranges over: those below the
    root, in document order. *)
Definition queried_elements (root : Node) : list Node :=
  match childNodes root with
  | Some cs => flat_map subtree_elements cs
  | None => []
  end.


(** A small engine meeting the contract, for concrete runs: a selector
    with a bracket in it is rejected, any other is a tag name. *)
Definition tag_compile (adapter : Polyfill.Adapter) (selector : string)
  : option (Node -> bool) :=
  if Js.includes selector "[" then None
  else Some (fun n => String.eqb (Polyfill.getName adapter n) selector).

Definition tag_selectOne (adapter : Polyfill.Adapter) (selector : string)
           (root : Node) : Js.outcome (option Node) :=
  match tag_compile adapter selector with
  | Some test => Js.Ret (find test (queried_elements root))
  | None => Js.Throw (Js.Error "Unmatched selector")
  end.

Definition tag_selectAll (adapter : Polyfill.Adapter) (selector : string)
           (root : Node) : Js.outcome (list Node) :=
  match tag_compile adapter selector with
  | Some test => Js.Ret (filter test (queried_elements root))
  | None => Js.Throw (Js.Error "Unmatched selector")
  end.


(** The children of a node, none for a leaf. *)
Definition children_of (n : Node) : list Node :=
  match childNodes n with
  | Some cs => cs
  | None => []
  end.

(** A document for concrete runs:
    [<html><div id="x"><script type="observable">1+1</script></div></html>]. *)
Definition sample_script : Node :=
  Element "script" [("type", "observable")] [Text "1+1"] [].

Definition sample_document : Node :=
  Document [Element "html" [] [Element "div" [("id", "x")] [sample_script] []] []].

(** A sequence is NodeList-compatible when it has [item] next to indexed
    access and [forEach], and the three agree. *)
Definition NodeListCompatible (l : Polyfill.NodeList) : Prop :=
  (forall index, Polyfill.call_item l index = Js.Ret (Polyfill.at_index l index)) /\
  Polyfill.call_forEach l = Polyfill.indexed (Polyfill.entries l).

(** [out] is [l] with exactly the members satisfying [P] kept, in their
    order. *)
Inductive kept_in_order {A : Type} (P : A -> Prop) : list A -> list A -> Prop :=
| kept_nil : kept_in_order P [] []
| kept_keep (x : A) (l out : list A) :
    P x -> kept_in_order P l out -> kept_in_order P (x :: l) (x :: out)
| kept_drop (x : A) (l out : list A) :
    ~ P x -> kept_in_order P l out -> kept_in_order P (x :: l) out.

(** [n] is not a descendant of some other node of [ns]. *)
Definition outermost {N : Type} (parentNode : N -> option N) (ns : list N)
           (n : N) : Prop :=
  ~ exists other, In other ns /\ other <> n /\ Tree.ancestor parentNode other n.


(** The statement about assigning [textContent], at an element [E] and a
    string [s]. *)
Definition textContent_as_stated (toString : Node -> string) (E : Node)
           (s : string) : Prop :=
  exists E',
    Polyfill.set_property E "textContent" (Js.str s) = Some E' /\
    Polyfill.get_property toString E' "textContent" = Some (Js.str s) /\
    (s <> EmptyString -> childNodes E' = Some [Text s]) /\
    (s = EmptyString -> childNodes E' = Some []).

(** The [pinned] field of a produced cell is neither [undefined] nor
    [null]. *)
Definition pinned_defined (c : Serializer.NotebookCellData) : Prop :=
  Serializer.cell_pinned (Serializer.metadata c) <> Js.undefined /\
  Serializer.cell_pinned (Serializer.metadata c) <> Js.null.

(** A missing or [null] [pinned] of the source cell has become [false];
    any other value is kept. *)
Definition pinned_normalized (source : Serializer.Cell)
           (c : Serializer.NotebookCellData) : Prop :=
  match Serializer.cell_pinned source with
  | Js.undefined | Js.null =>
      Serializer.cell_pinned (Serializer.metadata c) = Js.boolean false
  | v => Serializer.cell_pinned (Serializer.metadata c) = v
  end.

(** A decoder and a notebook library for concrete runs: the bytes read as
    characters, and a notebook of three cells whatever the content. *)
Definition sample_decode (content : list Byte.byte) : string :=
  string_of_list_byte content.

Definition sample_cell (i : Z) (pinned : Js.value) : Serializer.Cell :=
  {| Serializer.cell_id := i;
     Serializer.cell_value := "1 + 1";
     Serializer.cell_mode := "js";
     Serializer.cell_pinned := pinned;
     Serializer.cell_rest := [] |}.

Definition sample_notebook : Serializer.Notebook :=
  {| Serializer.title := "Untitled";
     Serializer.theme := "air";
     Serializer.readOnly := false;
     Serializer.cells :=
       [sample_cell 1 Js.undefined; sample_cell 2 Js.null;
        sample_cell 3 (Js.boolean true)] |}.

Definition sample_deserialize
           (parser : string -> string -> Polyfill.ParsedDocument)
           (content : string) : Js.outcome Serializer.Notebook :=
  Js.Ret sample_notebook.

End Spec.

(* ================================================================== *)
(** ** Saving a notebook                                                *)
(* ================================================================== *)

Module Saving.
Import Serializer.

Definition VSCODE_TO_OBSERVABLE_MODE_MAP : list (string * string) :=
  [ ("markdown", "md"); ("javascript", "js"); ("ojs", "ojs"); ("html", "html");
    ("css", "html"); ("tex", "tex"); ("sql", "sql"); ("dot", "dot") ].

(** What the editor hands over for a cell: [cell.metadata] may be missing,
    and inside it [id] and [pinned] may be missing ([undefined]) too. *)
Record CellMetadata : Type := {
  meta_id : Js.value;
  meta_pinned : Js.value
}.

Record CellInput : Type := {
  input_value : string;
  input_languageId : string;
  input_metadata : option CellMetadata
}.

(** [data.metadata], with each field possibly missing. *)
Record DocumentMetadata : Type := {
  meta_title : option string;
  meta_theme : option string;
  meta_readOnly : option bool
}.

Record NotebookInput : Type := {
  input_cells : list CellInput;
  input_document : option DocumentMetadata
}.

(** The cell and the notebook handed to the library's [serialize]; an id
    of [None] is [NaN]. *)
Record KitCell : Type := {
  kit_id : option Z;
  kit_value : string;
  kit_mode : string;
  kit_pinned : Js.value
}.

Record KitNotebook : Type := {
  kit_title : string;
  kit_theme : string;
  kit_readOnly : bool;
  kit_cells : list KitCell
}.

(** Truthiness of a value. *)
Definition truthy_value (v : Js.value) : bool :=
  match v with
  | Js.undefined | Js.null => false
  | Js.boolean b => b
  | Js.number z => negb (Z.eqb z 0)
  | Js.str s => Js.truthy_string s
  end.

(** [x ?? false]. *)
Definition or_false (v : Js.value) : Js.value :=
  match v with
  | Js.undefined | Js.null => Js.boolean false
  | _ => v
  end.

(** [cell.metadata?.id] and [cell.metadata?.pinned]. *)
Definition metadata_id (cell : CellInput) : Js.value :=
  match input_metadata cell with
  | Some m => meta_id m
  | None => Js.undefined
  end.

Definition metadata_pinned (cell : CellInput) : Js.value :=
  match input_metadata cell with
  | Some m => meta_pinned m
  | None => Js.undefined
  end.

Section Library.

(** [parseInt] on the string of its argument ([None] is [NaN]), the
    library's [serialize] and [TextEncoder.encode]. *)
Variable parseInt : string -> option Z.
Variable serialize : KitNotebook -> Js.outcome string.
Variable encode : string -> list Byte.byte.

(** One turn of the loop over [data.cells]: the cells pushed so far and
    [cellIdCounter]. *)
Definition push_cell (state : list KitCell * Z) (cell : CellInput)
  : list KitCell * Z :=
  let cells := fst state in
  let cellIdCounter := snd state in
  let id_and_counter :=
    if truthy_value (metadata_id cell)
    then (parseInt (Js.String_ (metadata_id cell)), cellIdCounter)
    else (Some cellIdCounter, (cellIdCounter + 1)%Z) in
  let mode :=
    match map_lookup (input_languageId cell) VSCODE_TO_OBSERVABLE_MODE_MAP with
    | Some m => if Js.truthy_string m then m else "js"
    | None => "js"
    end in
  let pinned := or_false (metadata_pinned cell) in
  ((cells ++ [ {| kit_id := fst id_and_counter;
                  kit_value := input_value cell;
                  kit_mode := mode;
                  kit_pinned := pinned |} ])%list,
   snd id_and_counter).

(** The notebook object built before the call of [serialize]. *)
Definition build_notebook (data : NotebookInput) : KitNotebook :=
  let cells := fst (fold_left push_cell (input_cells data) ([], 1%Z)) in
  {| kit_title :=
       match input_document data with
       | Some {| meta_title := Some t |} =>
           if Js.truthy_string t then t else "Untitled Notebook"
       | _ => "Untitled Notebook"
       end;
     kit_theme :=
       match input_document data with
       | Some {| meta_theme := Some t |} => if Js.truthy_string t then t else "air"
       | _ => "air"
       end;
     kit_readOnly :=
       match input_document data with
       | Some {| meta_readOnly := Some b |} => if b then b else false
       | _ => false
       end;
     kit_cells := cells |}.

Definition serializeToObservableKitFormat (data : NotebookInput)
  : Js.outcome string :=
  serialize (build_notebook data).

Definition serializeNotebook (data : NotebookInput)
  : Js.promise (list Byte.byte) :=
  match serializeToObservableKitFormat data with
  | Js.Ret htmlContent => Js.Resolved (encode htmlContent)
  | Js.Throw e => Js.Rejected e
  end.

End Library.

(** The notebook data that deserialization produced, as the editor hands
    it back: the metadata of a cell is the cell object of the library,
    the metadata of the document is the notebook object. *)
Definition cell_as_input (c : NotebookCellData) : CellInput :=
  {| input_value := value c;
     input_languageId := languageId c;
     input_metadata :=
       Some {| meta_id := Js.number (cell_id (metadata c));
               meta_pinned := cell_pinned (metadata c) |} |}.

Definition data_as_input (data : NotebookData) : NotebookInput :=
  {| input_cells := map cell_as_input (data_cells data);
     input_document :=
       Some {| meta_title := Some (title (data_metadata data));
               meta_theme := Some (theme (data_metadata data));
               meta_readOnly := Some (readOnly (data_metadata data)) |} |}.

End Saving.

(* ================================================================== *)
(** ** Further statements and sample inputs                             *)
(* ================================================================== *)

Module Further.
Import Dom.

(** What a child adds to the [textContent] of its parent. *)
Definition text_contribution (child : Node) : string :=
  match child with
  | Text d => d
  | Element _ _ _ _ => Js.or_empty (Polyfill.textContent child)
  | _ => EmptyString
  end.

Definition is_text (n : Node) : bool :=
  match n with
  | Text _ => true
  | _ => false
  end.

(** [out] is [l] with some members left out. *)
Inductive subsequence {A : Type} : list A -> list A -> Prop :=
| sub_nil : subsequence [] []
| sub_keep (x : A) (l out : list A) :
    subsequence l out -> subsequence (x :: l) (x :: out)
| sub_drop (x : A) (l out : list A) :
    subsequence l out -> subsequence (x :: l) out.

(** The names [enhanceElement] may define. *)
Definition enhanced_names : list string :=
  ["id"; "type"; "textContent"; "innerHTML"; "outerHTML"].

(** The modes of the notebook library that the table knows. *)
Definition known_mode (mode : string) : bool :=
  match Serializer.map_lookup mode Serializer.OBSERVABLE_TO_VSCODE_MODE_MAP with
  | Some _ => true
  | None => false
  end.

(** The cell a saved notebook holds for a source cell: the id and the
    value as they are, the mode as it is when the table knows it and [js]
    otherwise, [pinned] made a boolean. *)
Definition saved_cell (cell : Serializer.Cell) : Saving.KitCell :=
  {| Saving.kit_id := Some (Serializer.cell_id cell);
     Saving.kit_value := Serializer.cell_value cell;
     Saving.kit_mode :=
       if known_mode (Serializer.cell_mode cell) then Serializer.cell_mode cell
       else "js";
     Saving.kit_pinned := Saving.or_false (Serializer.cell_pinned cell) |}.

(** The mode saved for a language of the editor. *)
Definition saved_mode (languageId : string) : string :=
  match Serializer.map_lookup languageId Saving.VSCODE_TO_OBSERVABLE_MODE_MAP with
  | Some m => if Js.truthy_string m then m else "js"
  | None => "js"
  end.

(** A cell of the editor that carries no usable id. *)
Definition without_id (cell : Saving.CellInput) : bool :=
  negb (Saving.truthy_value (Saving.metadata_id cell)).

(** The cell saved for the cell at some place of the notebook, given the
    cells before it: its id is the parsed id of its metadata, or one more
    than the number of cells before it that carry no id. *)
Definition saved_at (parseInt : string -> option Z)
           (before : list Saving.CellInput) (cell : Saving.CellInput)
  : Saving.KitCell :=
  {| Saving.kit_id :=
       if Saving.truthy_value (Saving.metadata_id cell)
       then parseInt (Js.String_ (Saving.metadata_id cell))
       else Some (1 + Z.of_nat (length (filter without_id before)))%Z;
     Saving.kit_value := Saving.input_value cell;
     Saving.kit_mode := saved_mode (Saving.input_languageId cell);
     Saving.kit_pinned := Saving.or_false (Saving.metadata_pinned cell) |}.

(** The cells saved for [cells], which come after the cells [before]. *)
Fixpoint saved_from (parseInt : string -> option Z)
         (before cells : list Saving.CellInput) : list Saving.KitCell :=
  match cells with
  | [] => []
  | cell :: rest =>
      saved_at parseInt before cell :: saved_from parseInt (before ++ [cell])%list rest
  end.

(** Cells as the editor makes them, without metadata, for concrete runs. *)
Definition fresh_cell (value languageId : string) : Saving.CellInput :=
  {| Saving.input_value := value;
     Saving.input_languageId := languageId;
     Saving.input_metadata := None |}.

(** A decimal [parseInt] and a library that rejects every document, for
    concrete runs. *)
Definition decimal_parseInt (s : string) : option Z :=
  option_map Z.of_int (NilZero.int_of_string s).

Definition failing_deserialize
           (parser : string -> string -> Polyfill.ParsedDocument)
           (content : string) : Js.outcome Serializer.Notebook :=
  Js.Throw (Js.Error "Malformed notebook").

Definition sample_serialize (notebook : Saving.KitNotebook) : Js.outcome string :=
  Js.Ret (Saving.kit_title notebook).

Definition sample_encode (s : string) : list Byte.byte := list_byte_of_string s.

End Further.

(* ================================================================== *)
(** ** The adapter callbacks that compare and relate node objects       *)
(* ================================================================== *)

Module Handles.
Import Dom.

(** The node object at a position of the tree under [root]. *)
Fixpoint node_at (root : Node) (p : Tree.Position) : option Node :=
  match p with
  | [] => Some root
  | i :: up =>
      match node_at root up with
      | Some parent =>
          match childNodes parent with
          | Some cs => nth_error cs i
          | None => None
          end
      | None => None
      end
  end.

(** [parent.childNodes], each child with its position. *)
Definition child_handles (parent : Tree.Position) (cs : list Node)
  : list (Tree.Position * Node) :=
  combine (map (fun i => i :: parent) (seq 0 (length cs))) cs.

(** [getParent] of both adapters: the parent, or [null] at the root. *)
Definition getParent (node : Tree.Position) : option Tree.Position :=
  match Tree.parentNode node with
  | Some parent => Some parent
  | None => None
  end.

(** [getSiblings] of the polyfill's adapter. *)
Definition polyfill_getSiblings (root : Node) (node : Tree.Position)
  : list Tree.Position :=
  match Tree.parentNode node with
  | None => [node]
  | Some parent =>
      match node_at root parent with
      | Some p =>
          match childNodes p with
          | Some cs =>
              fold_left
                (fun siblings child =>
                   if Z.eqb (nodeType (snd child)) 1
                   then (siblings ++ [fst child])%list
                   else siblings)
                (child_handles parent cs) []
          | None => []
          end
      | None => []
      end
  end.

(** [getSiblings] of the serializer's adapter: every child of the parent. *)
Definition serializer_getSiblings (root : Node) (node : Tree.Position)
  : list Tree.Position :=
  match Tree.parentNode node with
  | None => [node]
  | Some parent =>
      match node_at root parent with
      | Some p =>
          match childNodes p with
          | Some cs => map fst (child_handles parent cs)
          | None => []
          end
      | None => []
      end
  end.

(** [equals]: the same object. *)
Definition equals (a b : Tree.Position) : bool := Tree.same_position a b.

End Handles.

(* ================================================================== *)
(** ** Synced properties                                                *)
(* ================================================================== *)

Import Dom.

Lemma or_empty_some (s : string) : Js.or_empty (Some s) = s.
Proof. destruct s; reflexivity. Qed.

Lemma attr_lookup_store (name value : string) (attrs : list (string * string)) :
  attr_lookup name (attr_store name value attrs) = Some value.
Proof.
  induction attrs as [|[k v] rest IH]; simpl.
  - now rewrite String.eqb_refl.
  - destruct (String.eqb k name) eqn:Hk; simpl; rewrite Hk; [reflexivity | exact IH].
Qed.

Lemma attr_lookup_remove (name : string) (attrs : list (string * string)) :
  attr_lookup name (attr_remove name attrs) = None.
Proof.
  induction attrs as [|[k v] rest IH]; simpl; [reflexivity|].
  destruct (String.eqb k name) eqn:Hk; simpl; [exact IH | now rewrite Hk].
Qed.

Lemma syncProperties_cases (tagName : string) :
  (Js.toLowerCase tagName = "script" /\
   Polyfill.syncProperties tagName = ["id"; "type"]) \/
  (Js.toLowerCase tagName <> "script" /\
   Polyfill.syncProperties tagName = ["id"]).
Proof.
  unfold Polyfill.syncProperties.
  destruct (String.eqb (Js.toLowerCase tagName) "script") eqn:H.
  - left. split; [now apply String.eqb_eq | reflexivity].
  - right. split; [now apply String.eqb_neq | reflexivity].
Qed.

(** The properties [enhanceElement] defines are synced on its result. *)
Lemma enhanceElement_synced (element : Node) (tagName P : string) :
  is_element element = true ->
  In P (Polyfill.syncProperties tagName) ->
  Spec.SyncedOn (Polyfill.enhanceElement element tagName) P.
Proof.
  intros Hel HP.
  destruct element as [t attrs cs own| | |]; try discriminate.
  unfold Polyfill.enhanceElement.
  destruct (syncProperties_cases tagName) as [[_ Heq]|[_ Heq]];
    rewrite Heq in *; destruct (andb _ _); simpl in HP;
    repeat (destruct HP as [HP|HP]; [subst P; split; reflexivity|]);
    contradiction.
Qed.

(** Every element made by the patched [createElement] has the installed
    [textContent] accessor and the [innerHTML] getter. *)
Lemma createElement_accessors (name : string) :
  Spec.TextContentOn (Polyfill.createElement name) /\
  Spec.InnerHTMLOn (Polyfill.createElement name).
Proof.
  unfold Polyfill.createElement, Polyfill.enhanceElement, origCreateElement.
  destruct (syncProperties_cases name) as [[_ Heq]|[_ Heq]]; rewrite Heq;
    repeat split; reflexivity.
Qed.

(** C1. On every enhanced element, [id] is a synced property, and [type]
    is one exactly when the tag is [script] in any letter case. For every
    element [E] and property [P] synced on it: reading [E.P] gives the
    value of the attribute [P], or the empty string when the attribute is
    absent; assigning a value that is neither [null] nor [undefined] stores
    its [String] with [setAttribute], and [E.P] then reads as that string;
    assigning [null] (or [undefined]) removes the attribute, so that
    [hasAttribute] is false and [E.P] reads as the empty string. *)
Theorem synced_property_follows_attribute :
  forall (toString : Node -> string) (element : Node) (tagName : string),
    is_element element = true ->
    Spec.SyncedOn (Polyfill.enhanceElement element tagName) "id" /\
    (Js.toLowerCase tagName = "script" ->
     Spec.SyncedOn (Polyfill.enhanceElement element tagName) "type") /\
    (In "type" (Polyfill.syncProperties tagName) ->
     Js.toLowerCase tagName = "script") /\
    forall (E : Node) (P : string),
      Spec.SyncedOn E P ->
      Polyfill.get_property toString E P =
        Some (Js.str (match getAttribute E P with
                      | Some s => s
                      | None => EmptyString
                      end)) /\
      (forall v : Js.value,
          Js.loosely_null v = false ->
          exists E',
            Polyfill.set_property E P v = Some E' /\
            E' = setAttribute E P (Js.String_ v) /\
            Spec.SyncedOn E' P /\
            getAttribute E' P = Some (Js.String_ v) /\
            Polyfill.get_property toString E' P = Some (Js.str (Js.String_ v))) /\
      (forall v : Js.value,
          Js.loosely_null v = true ->
          exists E',
          Polyfill.set_property E P v = Some E' /\
          E' = removeAttribute E P /\
          Spec.SyncedOn E' P /\
          hasAttribute E' P = false /\
          Polyfill.get_property toString E' P = Some (Js.str EmptyString)).
Proof.
  intros toString element tagName Hel.
  split; [|split; [|split]].
  - apply enhanceElement_synced; [exact Hel|].
    destruct (syncProperties_cases tagName) as [[_ ->]|[_ ->]]; simpl; auto.
  - intros Hs. apply enhanceElement_synced; [exact Hel|].
    destruct (syncProperties_cases tagName) as [[_ ->]|[Hn _]]; simpl; auto.
    contradiction.
  - intros Hin.
    destruct (syncProperties_cases tagName) as [[Hs _]|[_ Heq]]; [exact Hs|].
    rewrite Heq in Hin. simpl in Hin.
    destruct Hin as [Hin|[]]. discriminate.
  - intros E P [HE HP].
    destruct E as [t attrs cs own| | |]; try discriminate.
    assert (Hget : forall E', is_element E' = true ->
               getOwnPropertyDescriptor E' P = Some (SyncedAttribute P) ->
               Polyfill.get_property toString E' P =
               Some (Js.str (match getAttribute E' P with
                             | Some s => s
                             | None => EmptyString
                             end))).
    { intros E' _ HP'. unfold Polyfill.get_property. rewrite HP'. simpl.
      unfold Polyfill.synced_get.
      destruct (getAttribute E' P) as [s|]; [now rewrite or_empty_some | reflexivity]. }
    split; [now apply Hget | split].
    + intros v Hv.
      exists (setAttribute (Element t attrs cs own) P (Js.String_ v)).
      assert (Hattr : getAttribute (setAttribute (Element t attrs cs own) P (Js.String_ v)) P
                      = Some (Js.String_ v))
        by (simpl; apply attr_lookup_store).
      split; [|split; [reflexivity|split; [split; [reflexivity|exact HP]|split]]].
      * unfold Polyfill.set_property. rewrite HP. simpl.
        unfold Polyfill.synced_set. now rewrite Hv.
      * exact Hattr.
      * rewrite Hget; [now rewrite Hattr | reflexivity | exact HP].
    + intros v Hv. exists (removeAttribute (Element t attrs cs own) P).
      assert (Hattr : getAttribute (removeAttribute (Element t attrs cs own) P) P = None)
        by (simpl; apply attr_lookup_remove).
      split; [|split; [reflexivity|split; [split; [reflexivity|exact HP]|split]]].
      * unfold Polyfill.set_property. rewrite HP. simpl.
        unfold Polyfill.synced_set. now rewrite Hv.
      * unfold hasAttribute. now rewrite Hattr.
      * rewrite Hget; [now rewrite Hattr | reflexivity | exact HP].
Qed.

Lemma synced_property_witness :
  is_element (origCreateElement "SCRIPT") = true /\
  Spec.SyncedOn (Polyfill.createElement "SCRIPT") "type" /\
  exists E',
    Polyfill.set_property (Polyfill.createElement "SCRIPT") "type"
                          (Js.str "observable") = Some E' /\
    getAttribute E' "type" = Some "observable".
Proof.
  split; [reflexivity|].
  destruct (synced_property_follows_attribute
              (fun _ => EmptyString) (origCreateElement "SCRIPT") "SCRIPT" eq_refl)
    as [_ [Htype [_ H]]].
  assert (HS := Htype eq_refl).
  split; [exact HS|].
  destruct (H _ _ HS) as [_ [Hset _]].
  destruct (Hset (Js.str "observable") eq_refl) as [E' [H1 [_ [_ [H2 _]]]]].
  exists E'. split; assumption.
Defined.

(* ================================================================== *)
(** ** Assigning and reading [textContent]                              *)
(* ================================================================== *)

(** The getter that [node.textContent] dispatches to on an element with
    the installed accessor is the getter of the descriptor. *)
Lemma textContent_dispatch (E : Node) :
  Spec.TextContentOn E ->
  Polyfill.textContent E = Some (Polyfill.textContent_get E).
Proof.
  intros [HE HP].
  destruct E as [t attrs cs own| | |]; try discriminate.
  clear HE. simpl in HP. unfold Polyfill.textContent_get.
  cbn -[Js.or_empty]. rewrite HP. f_equal.
  generalize EmptyString.
  induction cs as [|child rest IH]; intros text; [reflexivity|].
  destruct child as [t' a' cs' o'|d|k d|cs']; try destruct k; apply IH.
Qed.

(** The loop of the setter ends, with no child left. *)
Lemma remove_children_element (t : string) (attrs : list (string * string))
      (cs : list Node) (own : list (string * descriptor)) :
  Polyfill.remove_children (Element t attrs cs own) = Element t attrs [] own.
Proof.
  induction cs as [|c rest IH]; simp remove_children; simpl.
  - reflexivity.
  - exact IH.
Qed.

Example remove_children_runs :
  Polyfill.remove_children
    (Element "p" [] [Text "a"; Element "b" [] [] []; Text "c"] []) =
  Element "p" [] [] [].
Proof. reflexivity. Qed.

Lemma textContent_set_string (t : string) (attrs : list (string * string))
      (cs : list Node) (own : list (string * descriptor)) (s : string) :
  Polyfill.textContent_set (Element t attrs cs own) (Js.str s) =
  Element t attrs [Text s] own.
Proof.
  unfold Polyfill.textContent_set. rewrite remove_children_element. simpl.
  unfold Polyfill.createTextNode. now rewrite or_empty_some.
Qed.

Lemma textContent_set_nullish (t : string) (attrs : list (string * string))
      (cs : list Node) (own : list (string * descriptor)) (v : Js.value) :
  Js.loosely_null v = true ->
  Polyfill.textContent_set (Element t attrs cs own) v = Element t attrs [] own.
Proof.
  intros Hv. unfold Polyfill.textContent_set.
  rewrite remove_children_element, Hv. reflexivity.
Qed.

(** C5, as the code has it. For every element [E] with the installed
    [textContent] accessor and every string [s], the empty string
    included: after [E.textContent = s] the element has exactly one child,
    a text node holding [s], and [E.textContent] reads as [s]. Assigning
    [null] or [undefined] removes every child and adds none. *)
Theorem textContent_assignment_leaves_one_text_child :
  forall (toString : Node -> string) (E : Node),
    Spec.TextContentOn E ->
    (forall s : string,
        exists E',
          Polyfill.set_property E "textContent" (Js.str s) = Some E' /\
          childNodes E' = Some [Text s] /\
          Polyfill.get_property toString E' "textContent" = Some (Js.str s) /\
          Spec.TextContentOn E') /\
    (forall v : Js.value,
        Js.loosely_null v = true ->
        exists E',
          Polyfill.set_property E "textContent" v = Some E' /\
          childNodes E' = Some []).
Proof.
  intros toString E [HE HP].
  destruct E as [t attrs cs own| | |]; try discriminate.
  split.
  - intros s. exists (Element t attrs [Text s] own).
    split; [|split; [reflexivity|split; [|split; [reflexivity|exact HP]]]].
    + unfold Polyfill.set_property. rewrite HP. simpl.
      now rewrite textContent_set_string.
    + unfold Polyfill.get_property.
      replace (getOwnPropertyDescriptor (Element t attrs [Text s] own) "textContent")
        with (Some TextContentAccessor) by (symmetry; exact HP).
      simpl. destruct s; reflexivity.
  - intros v Hv. exists (Element t attrs [] own). split; [|reflexivity].
    unfold Polyfill.set_property. rewrite HP. simpl.
    now rewrite textContent_set_nullish.
Qed.

Lemma textContent_assignment_witness :
  Spec.TextContentOn (Polyfill.createElement "div") /\
  exists E',
    Polyfill.set_property (Polyfill.createElement "div") "textContent"
                          (Js.str "1 + 1") = Some E' /\
    childNodes E' = Some [Text "1 + 1"] /\
    Polyfill.get_property (fun _ => EmptyString) E' "textContent" =
      Some (Js.str "1 + 1").
Proof.
  assert (H : Spec.TextContentOn (Polyfill.createElement "div"))
    by (split; reflexivity).
  split; [exact H|].
  destruct (textContent_assignment_leaves_one_text_child
              (fun _ => EmptyString) _ H) as [Hs _].
  destruct (Hs "1 + 1") as [E' [H1 [H2 [H3 _]]]].
  exists E'. repeat split; assumption.
Defined.

(** C5 as stated fails at the empty string: on a fresh [div], assigning
    the empty string leaves one (empty) text child, not zero children. *)
Lemma textContent_empty_string_counterexample :
  Spec.TextContentOn (Polyfill.createElement "div") /\
  Polyfill.set_property (Polyfill.createElement "div") "textContent"
                        (Js.str EmptyString) =
    Some (Element "div" [] [Text EmptyString]
                  [("outerHTML", OuterHTMLGetter); ("innerHTML", InnerHTMLGetter);
                   ("textContent", TextContentAccessor);
                   ("id", SyncedAttribute "id")]) /\
  ~ Spec.textContent_as_stated (fun _ => EmptyString)
      (Polyfill.createElement "div") EmptyString.
Proof.
  split; [split; reflexivity|].
  split; [reflexivity|].
  intros [E' [Hset [_ [_ Hzero]]]].
  specialize (Hzero eq_refl).
  vm_compute in Hset. inversion Hset; subst E'. discriminate Hzero.
Qed.

(* ================================================================== *)
(** ** Reading [innerHTML]                                              *)
(* ================================================================== *)

Lemma string_app_assoc (a b c : string) : (a ++ b) ++ c = a ++ (b ++ c).
Proof. induction a as [|x a IH]; simpl; [reflexivity | now rewrite IH]. Qed.

Lemma string_app_empty_r (a : string) : a ++ EmptyString = a.
Proof. induction a as [|x a IH]; simpl; [reflexivity | now rewrite IH]. Qed.

(** The three replacements in sequence escape each character on its own:
    the ampersands that the first one writes are not seen again, since it
    runs before the other two. *)
Lemma escape_text_step (c : ascii) (r : string) :
  Polyfill.escape_text (String c r) = Spec.escape_char c ++ Polyfill.escape_text r.
Proof.
  unfold Polyfill.escape_text, Spec.escape_char. simpl.
  destruct (Ascii.eqb c "&") eqn:Hamp; [reflexivity|].
  simpl. destruct (Ascii.eqb c "<") eqn:Hlt; [reflexivity|].
  simpl. destruct (Ascii.eqb c ">") eqn:Hgt; reflexivity.
Qed.

Lemma escape_text_escape (text : string) :
  Polyfill.escape_text text = Spec.escape text.
Proof.
  induction text as [|c r IH]; [reflexivity|].
  rewrite escape_text_step. simpl. now rewrite IH.
Qed.

Lemma innerHTML_loop (toString : Node -> string) (cs : list Node) :
  forall html : string,
    (fix loop (html : string) (cs : list Node) : string :=
       match cs with
       | [] => html
       | child :: rest =>
           loop (if Z.eqb (nodeType child) 1 then html ++ toString child
                 else if Z.eqb (nodeType child) 3
                      then html ++ Polyfill.escape_text (Js.or_empty (nodeValue child))
                      else html) rest
       end) html cs =
    html ++ Spec.concat_all (map (Spec.child_html toString) cs).
Proof.
  induction cs as [|child rest IH]; intros html; simpl.
  - now rewrite string_app_empty_r.
  - rewrite IH. rewrite <- string_app_assoc. f_equal.
    destruct child as [t a cs o|d|k d|cs].
    + reflexivity.
    + unfold nodeValue. rewrite or_empty_some. simpl.
      now rewrite escape_text_escape.
    + destruct k; simpl; now rewrite string_app_empty_r.
    + simpl. now rewrite string_app_empty_r.
Qed.

(** C6. Reading [innerHTML] on an enhanced element gives, in child
    order, the serialization of each element child and the value of each
    text child with every [&], [<] and [>] replaced by its entity and no
    other character changed; the quote characters stay as they are, and
    the text [a<b>&c] contributes [a&lt;b&gt;&amp;c]. *)
Theorem innerHTML_serializes_children :
  forall (toString : Node -> string) (E : Node) (cs : list Node),
    Spec.InnerHTMLOn E ->
    childNodes E = Some cs ->
    Polyfill.get_property toString E "innerHTML" =
      Some (Js.str (Spec.concat_all (map (Spec.child_html toString) cs))) /\
    (forall text, Polyfill.escape_text text = Spec.escape text) /\
    (forall c : ascii,
        c <> "&"%char -> c <> "<"%char -> c <> ">"%char ->
        Spec.escape_char c = String c EmptyString) /\
    Spec.escape_char "&" = "&amp;" /\
    Spec.escape_char "<" = "&lt;" /\
    Spec.escape_char ">" = "&gt;" /\
    Spec.escape_char "034" = String "034" EmptyString /\
    Spec.escape_char "'" = "'" /\
    Polyfill.escape_text "a<b>&c" = "a&lt;b&gt;&amp;c".
Proof.
  intros toString E cs [HE HP] Hcs.
  split; [|split; [exact escape_text_escape|split]].
  - unfold Polyfill.get_property. rewrite HP. simpl.
    unfold Polyfill.innerHTML_get. rewrite Hcs.
    now rewrite innerHTML_loop.
  - intros c Hamp Hlt Hgt. unfold Spec.escape_char.
    apply Ascii.eqb_neq in Hamp, Hlt, Hgt. now rewrite Hamp, Hlt, Hgt.
  - repeat split; reflexivity.
Qed.

Lemma innerHTML_witness :
  Polyfill.get_property
    (fun _ => "<b/>")
    (appendChild (appendChild (Polyfill.createElement "p") (Text "a<b>&c"))
                 (Polyfill.createElement "b"))
    "innerHTML" = Some (Js.str "a&lt;b&gt;&amp;c<b/>").
Proof.
  exact (proj1 (innerHTML_serializes_children
                  (fun _ => "<b/>")
                  (appendChild (appendChild (Polyfill.createElement "p") (Text "a<b>&c"))
                               (Polyfill.createElement "b"))
                  [Text "a<b>&c"; Polyfill.createElement "b"]
                  (conj eq_refl eq_refl) eq_refl)).
Defined.

(* ================================================================== *)
(** ** The two adapters                                                 *)
(* ================================================================== *)

(** C3. The polyfill's [getAttributeValue] returns the value of a present
    attribute, the empty string included, and [undefined] ([None]) exactly
    when the attribute is absent. The serializer's own copy does not: on
    [<input value>], whose [value] attribute is present and empty, it
    answers [undefined]. *)
Theorem getAttributeValue_present_or_undefined :
  (forall (t : string) (attrs : list (string * string)) (cs : list Node)
          (own : list (string * descriptor)) (name : string),
      Polyfill.getAttributeValue Polyfill.xmldomAdapter (Element t attrs cs own) name =
      getAttribute (Element t attrs cs own) name) /\
  getAttribute (Element "input" [("value", EmptyString)] [] []) "value" =
    Some EmptyString /\
  Polyfill.getAttributeValue Polyfill.xmldomAdapter
    (Element "input" [("value", EmptyString)] [] []) "value" = Some EmptyString /\
  Polyfill.getAttributeValue Serializer.xmldomAdapter
    (Element "input" [("value", EmptyString)] [] []) "value" = None.
Proof.
  split; [|repeat split; reflexivity].
  intros t attrs cs own name. simpl.
  unfold Polyfill.adapter_getAttributeValue. simpl.
  destruct (attr_lookup name attrs); reflexivity.
Qed.

Lemma getChildren_loop (cs : list Node) :
  forall children : list Node,
    fold_left (fun children child =>
                 if Z.eqb (nodeType child) 1 then (children ++ [child])%list
                 else children) cs children =
    (children ++ filter is_element cs)%list.
Proof.
  induction cs as [|c rest IH]; intros children; simpl.
  - now rewrite app_nil_r.
  - rewrite IH.
    destruct c as [t a cs o|d|k d|cs]; simpl;
      try (destruct k; simpl); try reflexivity.
    now rewrite <- app_assoc.
Qed.

(** C4. The polyfill's [getChildren] returns the element children of the
    node and only those, in their order. The serializer's own copy
    returns every child: on [<p>x<b></b></p>] the text node comes back
    with the element. *)
Theorem getChildren_element_children_only :
  (forall n : Node,
      Polyfill.getChildren Polyfill.xmldomAdapter n =
      filter (fun c => Z.eqb (nodeType c) 1) (Spec.children_of n)) /\
  Polyfill.getChildren Polyfill.xmldomAdapter
    (Element "p" [] [Text "x"; Element "b" [] [] []] []) = [Element "b" [] [] []] /\
  Polyfill.getChildren Serializer.xmldomAdapter
    (Element "p" [] [Text "x"; Element "b" [] [] []] []) =
    [Text "x"; Element "b" [] [] []].
Proof.
  split; [|split; reflexivity].
  intros n. simpl. unfold Polyfill.adapter_getChildren, Spec.children_of.
  destruct (childNodes n) as [cs|]; [|reflexivity].
  rewrite getChildren_loop. simpl.
  apply filter_ext. intros c.
  destruct c as [t a cs' o|d|k d|cs']; try destruct k; reflexivity.
Qed.

(* ================================================================== *)
(** ** [querySelector] and [querySelectorAll]                           *)
(* ================================================================== *)

Section QueryWrappers.

Variable selectOne : Polyfill.Adapter -> string -> Node -> Js.outcome (option Node).
Variable selectAll : Polyfill.Adapter -> string -> Node -> Js.outcome (list Node).
Variable base_parseFromString : string -> string -> Node.


Lemma assigned_results_compatible (results : list Node) :
  Spec.NodeListCompatible
    {| Polyfill.entries := results;
       Polyfill.own_item := Some Polyfill.ItemOfResults;
       Polyfill.own_forEach := Some Polyfill.ForEachOverResults |}.
Proof.
  split; [|reflexivity].
  intros index. unfold Polyfill.call_item. simpl.
  now destruct (Polyfill.at_index _ index).
Qed.

Lemma empty_list_compatible :
  Spec.NodeListCompatible
    {| Polyfill.entries := [];
       Polyfill.own_item := Some Polyfill.ItemAlwaysNull;
       Polyfill.own_forEach := Some Polyfill.ForEachNothing |}.
Proof.
  split; [|reflexivity].
  intros index. unfold Polyfill.call_item, Polyfill.at_index. simpl.
  destruct (Z.ltb index 0); [reflexivity|].
  now destruct (Z.to_nat index).
Qed.

(** The polyfill's [try]/[catch] around [selectAll]: the engine's results
    with [item] and [forEach] on them, or the empty list with both and one
    logged line. *)
Lemma query_all_cases (r : Js.outcome (list Node)) (label : string) :
  exists (l : Polyfill.NodeList) (log : list Js.log_line),
    Js.try_catch_log
      (Js.and_then r
         (fun results =>
            {| Polyfill.entries := results;
               Polyfill.own_item := Some Polyfill.ItemOfResults;
               Polyfill.own_forEach := Some Polyfill.ForEachOverResults |}))
      label
      {| Polyfill.entries := [];
         Polyfill.own_item := Some Polyfill.ItemAlwaysNull;
         Polyfill.own_forEach := Some Polyfill.ForEachNothing |} =
    (Js.Ret l, log) /\
    Spec.NodeListCompatible l /\
    match r with
    | Js.Ret results => Polyfill.entries l = results /\ log = []
    | Js.Throw e => Polyfill.entries l = [] /\ log = [Js.LogLine label e]
    end.
Proof.
  destruct r as [results|e]; simpl.
  - eexists; eexists; split; [reflexivity|].
    split; [apply assigned_results_compatible | split; reflexivity].
  - eexists; eexists; split; [reflexivity|].
    split; [apply empty_list_compatible | split; reflexivity].
Qed.

End QueryWrappers.

(** C2. The global document's [querySelectorAll] and the one the
    polyfill's [DOMParser] installs never throw and always return a
    NodeList-compatible sequence: the engine's results when it returns,
    the empty sequence (and one logged line) when it throws. The one
    [DOMParserEx] installs in their place returns a plain array: with a
    selector the engine rejects, the result is empty but has no [item],
    so it is not NodeList-compatible. *)
Theorem querySelectorAll_nodelist_on_error :
  (forall selectOne selectAll base_parseFromString
          (this : Node) (data contentType selector : string),
      (exists l log,
          Polyfill.document_querySelectorAll selectAll this selector = (Js.Ret l, log) /\
          Spec.NodeListCompatible l /\
          match selectAll Polyfill.xmldomAdapter selector this with
          | Js.Ret results => Polyfill.entries l = results /\ log = []
          | Js.Throw e =>
              Polyfill.entries l = [] /\
              log = [Js.LogLine "Error in document.querySelectorAll:" e]
          end) /\
      (exists l log,
          Polyfill.querySelectorAll
            (Polyfill.parseFromString selectOne selectAll base_parseFromString
                                      data contentType) selector = (Js.Ret l, log) /\
          Spec.NodeListCompatible l /\
          match selectAll Polyfill.xmldomAdapter selector
                          (Polyfill.rootElement (base_parseFromString data contentType)) with
          | Js.Ret results => Polyfill.entries l = results /\ log = []
          | Js.Throw e =>
              Polyfill.entries l = [] /\
              log = [Js.LogLine "Error in querySelectorAll:" e]
          end)) /\
  (Polyfill.querySelectorAll
     (Serializer.parseFromString Spec.tag_selectOne Spec.tag_selectAll
                                 (fun _ _ => Spec.sample_document) "<html/>" "text/html")
     "script[" =
   (Js.Ret (Polyfill.plain_array []),
    [Js.LogLine "Error in querySelectorAll:" (Js.Error "Unmatched selector")]) /\
   Polyfill.call_item (Polyfill.plain_array []) 0 =
     Js.Throw (Js.Error "list.item is not a function") /\
   ~ Spec.NodeListCompatible (Polyfill.plain_array [])).
Proof.
  split.
  - intros selectOne selectAll base this data contentType selector. split.
    + apply query_all_cases.
    + apply query_all_cases.
  - split; [reflexivity|split; [reflexivity|]].
    intros [Hitem _]. specialize (Hitem 0%Z). discriminate Hitem.
Qed.




(* ================================================================== *)
(** ** [removeSubsets]                                                  *)
(* ================================================================== *)

Section IndexedArrays.
Context {A : Type}.

Lemma some_from_spec (g : nat -> A -> bool) (l : list A) :
  forall k : nat,
    Js.some_from g k l = true <->
    exists j x, nth_error l j = Some x /\ g (k + j) x = true.
Proof.
  induction l as [|y r IH]; intros k; simpl.
  - split; [discriminate|]. intros [j [x [H _]]]. destruct j; discriminate.
  - destruct (g k y) eqn:Hg.
    + split; [|reflexivity]. intros _. exists 0, y.
      rewrite Nat.add_0_r. now split.
    + rewrite IH. split.
      * intros [j [x [Hn Hx]]]. exists (S j), x. split; [exact Hn|].
        now rewrite Nat.add_succ_r.
      * intros [j [x [Hn Hx]]]. destruct j as [|j].
        -- simpl in Hn. injection Hn as ->. rewrite Nat.add_0_r in Hx. congruence.
        -- exists j, x. split; [exact Hn|]. now rewrite Nat.add_succ_r in Hx.
Qed.

Lemma filter_from_kept (f : nat -> A -> bool) (P : A -> Prop) (l : list A) :
  forall k : nat,
    (forall j x, nth_error l j = Some x -> (f (k + j) x = true <-> P x)) ->
    Spec.kept_in_order P l (Js.filter_from f k l).
Proof.
  induction l as [|y r IH]; intros k H; simpl.
  - constructor.
  - assert (Hr : Spec.kept_in_order P r (Js.filter_from f (S k) r)).
    { apply IH. intros j x Hj. rewrite <- (H (S j) x Hj).
      now rewrite Nat.add_succ_r. }
    assert (Hy := H 0 y eq_refl). rewrite Nat.add_0_r in Hy.
    destruct (f k y).
    + apply Spec.kept_keep; [now apply Hy | exact Hr].
    + apply Spec.kept_drop; [|exact Hr]. intros HP. apply Hy in HP. discriminate.
Qed.

Lemma kept_in_order_In (P : A -> Prop) (l out : list A) :
  Spec.kept_in_order P l out -> forall x, In x out <-> In x l /\ P x.
Proof.
  induction 1 as [|y l out Hy _ IH|y l out Hy _ IH]; intros x; simpl.
  - tauto.
  - rewrite IH. split.
    + intros [->|[H1 H2]]; auto.
    + intros [[->|H1] H2]; auto.
  - rewrite IH. split.
    + intros [H1 H2]; auto.
    + intros [[->|H1] H2]; [contradiction | auto].
Qed.

End IndexedArrays.

(** The two copies of [removeSubsets] are the same function. *)
Lemma removeSubsets_copies_agree (N : Type)
      (contains_method : N -> option (N -> bool)) (ns : list N) :
  Serializer.removeSubsets contains_method ns =
  Polyfill.removeSubsets contains_method ns.
Proof. reflexivity. Qed.


Lemma same_position_eq (p q : Tree.Position) :
  Tree.same_position p q = true <-> p = q.
Proof.
  revert q. induction p as [|i p IH]; destruct q as [|j q]; simpl;
    try (split; [discriminate | congruence]); try tauto.
  rewrite andb_true_iff, Nat.eqb_eq, IH. split.
  - intros [-> ->]. reflexivity.
  - intros H. injection H as -> ->. now split.
Qed.

(** Climbing the positions is the DOM's [contains]. *)
Lemma position_contains_standard (other : Tree.Position) :
  Tree.standard_contains Tree.parentNode Tree.contains_method other.
Proof.
  exists (Tree.contains other). split; [reflexivity|].
  intros node. induction node as [|i up IH]; simpl.
  - destruct (Tree.same_position other []) eqn:Hs.
    + apply same_position_eq in Hs. subst. tauto.
    + split; [discriminate|]. intros [H|H].
      * subst. rewrite (proj2 (same_position_eq [] []) eq_refl) in Hs. discriminate.
      * inversion H; discriminate.
  - destruct (Tree.same_position other (i :: up)) eqn:Hs.
    + apply same_position_eq in Hs. subst. tauto.
    + rewrite IH. split.
      * intros [->|H]; right.
        -- now apply Tree.ancestor_parent.
        -- now apply Tree.ancestor_step with (p := up).
      * intros [H|H].
        -- subst. rewrite (proj2 (same_position_eq _ _) eq_refl) in Hs. discriminate.
        -- inversion H as [a n Hp|a p n Hp Hanc]; subst; simpl in Hp;
             injection Hp as <-; auto.
Qed.



(* ================================================================== *)
(** ** The notebook serializer                                          *)
(* ================================================================== *)

Lemma startsWith_spec (s p : string) :
  Js.startsWith s p = true <-> exists rest, s = p ++ rest.
Proof.
  revert s. induction p as [|a p IH]; intros s; simpl.
  - split; [intros _; now exists s | intros _; destruct s; reflexivity].
  - destruct s as [|b s]; simpl.
    + split; [discriminate|]. intros [rest H]. discriminate.
    + rewrite andb_true_iff, Ascii.eqb_eq, IH. split.
      * intros [-> [rest ->]]. now exists rest.
      * intros [rest H]. injection H as -> ->. split; [reflexivity | now exists rest].
Qed.

(** [includes] decides the occurrence of the needle. *)
Lemma includes_spec (s needle : string) :
  Js.includes s needle = true <-> Spec.Substring needle s.
Proof.
  induction s as [|c s IH].
  - cbn [Js.includes]. destruct (Js.startsWith EmptyString needle) eqn:Hs.
    + split; [|reflexivity]. intros _.
      apply startsWith_spec in Hs. destruct Hs as [rest Hs].
      now exists EmptyString, rest.
    + split; [discriminate|]. intros [before [after H]].
      destruct before; [|discriminate]. simpl in H.
      assert (Js.startsWith EmptyString needle = true)
        by (apply startsWith_spec; now exists after).
      congruence.
  - cbn [Js.includes].
    destruct (Js.startsWith (String c s) needle) eqn:Hs.
    + split; [|reflexivity]. intros _.
      apply startsWith_spec in Hs. destruct Hs as [rest Hs].
      now exists EmptyString, rest.
    + rewrite IH. split.
      * intros [before [after ->]]. now exists (String c before), after.
      * intros [before [after H]]. destruct before as [|b before].
        -- simpl in H.
           assert (Js.startsWith (String c s) needle = true)
             by (apply startsWith_spec; now exists after).
           congruence.
        -- simpl in H. injection H as -> ->. now exists before, after.
Qed.

Section NotebookProofs.

Variable deserialize :
  (string -> string -> Polyfill.ParsedDocument) -> string ->
  Js.outcome Serializer.Notebook.
Variable decode : list Byte.byte -> string.
Variable selectOne : Polyfill.Adapter -> string -> Node -> Js.outcome (option Node).
Variable selectAll : Polyfill.Adapter -> string -> Node -> Js.outcome (list Node).
Variable base_parseFromString : string -> string -> Node.

Lemma cells_loop (cs : list Serializer.Cell) :
  forall acc : list Serializer.NotebookCellData,
    fold_left (fun cells cell => (cells ++ [Serializer.cell_data cell])%list) cs acc =
    (acc ++ map Serializer.cell_data cs)%list.
Proof.
  induction cs as [|c cs IH]; intros acc; simpl.
  - now rewrite app_nil_r.
  - rewrite IH. now rewrite <- app_assoc.
Qed.

Lemma cell_data_pinned_defined (cell : Serializer.Cell) :
  Spec.pinned_defined (Serializer.cell_data cell).
Proof.
  unfold Spec.pinned_defined, Serializer.cell_data. simpl.
  destruct (Serializer.cell_pinned cell) eqn:Hp; simpl;
    rewrite ?Hp; split; discriminate.
Qed.

Lemma cell_data_pinned_normalized (cell : Serializer.Cell) :
  Spec.pinned_normalized cell (Serializer.cell_data cell).
Proof.
  unfold Spec.pinned_normalized, Serializer.cell_data. simpl.
  destruct (Serializer.cell_pinned cell) eqn:Hp; simpl; rewrite ?Hp; reflexivity.
Qed.

Lemma deserializeObservableKitNotebook_cells (content : string)
      (notebook : Serializer.Notebook) :
  deserialize (Serializer.parseFromString selectOne selectAll base_parseFromString)
              content = Js.Ret notebook ->
  Serializer.deserializeObservableKitNotebook
    deserialize selectOne selectAll base_parseFromString content =
  Js.Ret {| Serializer.data_cells := map Serializer.cell_data (Serializer.cells notebook);
            Serializer.data_metadata := notebook |}.
Proof.
  intros H. unfold Serializer.deserializeObservableKitNotebook.
  rewrite H. simpl. now rewrite cells_loop.
Qed.

End NotebookProofs.

(** C9. When the decoded text does not contain both [<notebook] and
    [<!doctype html>], [deserializeNotebook] resolves to [undefined]: it
    neither produces a notebook nor rejects. *)
Theorem deserializeNotebook_undefined_for_other_formats :
  forall deserialize decode selectOne selectAll base_parseFromString
         (content : list Byte.byte),
    ~ (Spec.Substring "<notebook" (decode content) /\
       Spec.Substring "<!doctype html>" (decode content)) ->
    Serializer.deserializeNotebook
      deserialize decode selectOne selectAll base_parseFromString content =
    Js.Resolved None.
Proof.
  intros deserialize decode selectOne selectAll base content Hnot.
  unfold Serializer.deserializeNotebook, Serializer.isObservableKitFormat.
  destruct (Js.includes (decode content) "<notebook") eqn:H1;
    destruct (Js.includes (decode content) "<!doctype html>") eqn:H2;
    simpl; try reflexivity.
  exfalso. apply Hnot. split; now apply includes_spec.
Qed.

Lemma deserializeNotebook_undefined_witness :
  Serializer.deserializeNotebook
    Spec.sample_deserialize Spec.sample_decode Spec.tag_selectOne Spec.tag_selectAll
    (fun _ _ => Spec.sample_document)
    (list_byte_of_string "<!doctype html><html><body>plain</body></html>") =
  Js.Resolved None.
Proof.
  apply deserializeNotebook_undefined_for_other_formats.
  intros [H _]. apply includes_spec in H. vm_compute in H. discriminate H.
Defined.

(** C10. Every cell of a notebook that [deserializeNotebook] produces
    has a [pinned] that is neither [undefined] nor [null]; and when the
    content is in the notebook format and the library returns a notebook,
    the result is produced, with one cell per source cell, in which a
    missing or [null] [pinned] has become [false] and any other value is
    kept. *)
Theorem deserialized_cells_have_pinned :
  forall deserialize decode selectOne selectAll base_parseFromString
         (content : list Byte.byte),
    (forall data,
        Serializer.deserializeNotebook
          deserialize decode selectOne selectAll base_parseFromString content =
        Js.Resolved (Some data) ->
        Forall Spec.pinned_defined (Serializer.data_cells data)) /\
    (forall notebook,
        Serializer.isObservableKitFormat (decode content) = true ->
        deserialize
          (Serializer.parseFromString selectOne selectAll base_parseFromString)
          (decode content) = Js.Ret notebook ->
        exists data,
          Serializer.deserializeNotebook
            deserialize decode selectOne selectAll base_parseFromString content =
          Js.Resolved (Some data) /\
          Forall2 Spec.pinned_normalized
                  (Serializer.cells notebook) (Serializer.data_cells data) /\
          Forall Spec.pinned_defined (Serializer.data_cells data)).
Proof.
  intros deserialize decode selectOne selectAll base content.
  assert (Hall : forall cs, Forall Spec.pinned_defined (map Serializer.cell_data cs)).
  { intros cs. apply Forall_forall. intros c Hc.
    apply in_map_iff in Hc. destruct Hc as [cell [<- _]].
    apply cell_data_pinned_defined. }
  split.
  - intros data H. unfold Serializer.deserializeNotebook in H.
    destruct (Serializer.isObservableKitFormat (decode content)); [|discriminate].
    destruct (deserialize
                (Serializer.parseFromString selectOne selectAll base)
                (decode content)) as [notebook|e] eqn:Hd.
    + rewrite (deserializeObservableKitNotebook_cells _ _ _ _ _ _ Hd) in H.
      injection H as <-. apply Hall.
    + unfold Serializer.deserializeObservableKitNotebook in H.
      rewrite Hd in H. discriminate.
  - intros notebook Hformat Hd.
    eexists. unfold Serializer.deserializeNotebook. rewrite Hformat.
    rewrite (deserializeObservableKitNotebook_cells _ _ _ _ _ _ Hd).
    split; [reflexivity|]. simpl. split; [|apply Hall].
    induction (Serializer.cells notebook) as [|c cs IH]; simpl; constructor.
    + apply cell_data_pinned_normalized.
    + exact IH.
Qed.

Lemma deserialized_cells_witness :
  exists data,
    Serializer.deserializeNotebook
      Spec.sample_deserialize Spec.sample_decode Spec.tag_selectOne Spec.tag_selectAll
      (fun _ _ => Spec.sample_document)
      (list_byte_of_string "<!doctype html><notebook></notebook>") =
    Js.Resolved (Some data) /\
    Forall2 Spec.pinned_normalized
            (Serializer.cells Spec.sample_notebook) (Serializer.data_cells data) /\
    Forall Spec.pinned_defined (Serializer.data_cells data).
Proof.
  exact (proj2 (deserialized_cells_have_pinned
                  Spec.sample_deserialize Spec.sample_decode
                  Spec.tag_selectOne Spec.tag_selectAll
                  (fun _ _ => Spec.sample_document)
                  (list_byte_of_string "<!doctype html><notebook></notebook>"))
               Spec.sample_notebook eq_refl eq_refl).
Defined.

(* ================================================================== *)
(** ** More on [enhanceElement] and the synced properties               *)
(* ================================================================== *)

Lemma own_lookup_app (name : string) (p l : list (string * descriptor)) :
  own_lookup name (p ++ l)%list =
  match own_lookup name p with
  | Some d => Some d
  | None => own_lookup name l
  end.
Proof.
  induction p as [|[k d] p IH]; simpl; [reflexivity|].
  destruct (String.eqb k name); [reflexivity | exact IH].
Qed.

(** A lookup under a name that enhancement does not define walks past
    every entry it added. *)
Ltac not_enhanced_name Hn :=
  repeat match goal with
         | |- context [String.eqb ?k ?name] =>
             let H := fresh "Hk" in
             destruct (String.eqb k name) eqn:H;
             [apply String.eqb_eq in H; exfalso; apply Hn; rewrite <- H;
              simpl; tauto|]
         end;
  reflexivity.

(** The shape of an enhanced element: the same tag, attributes and
    children, and a few accessors put in front of the own properties. *)
Lemma enhanceElement_shape (t : string) (attrs : list (string * string))
      (cs : list Node) (own : list (string * descriptor)) (tagName : string) :
  exists added : list (string * descriptor),
    Polyfill.enhanceElement (Element t attrs cs own) tagName =
      Element t attrs cs (added ++ own)%list /\
    own_lookup "id" added = Some (SyncedAttribute "id") /\
    own_lookup "innerHTML" added = Some InnerHTMLGetter /\
    own_lookup "outerHTML" added = Some OuterHTMLGetter /\
    (forall name, ~ In name Further.enhanced_names -> own_lookup name added = None).
Proof.
  unfold Polyfill.enhanceElement.
  destruct (syncProperties_cases tagName) as [[_ Heq]|[_ Heq]]; rewrite Heq;
    destruct (andb _ _); cbn [fold_left defineProperty].
  - exists [("outerHTML", OuterHTMLGetter); ("innerHTML", InnerHTMLGetter);
            ("textContent", TextContentAccessor);
            ("type", SyncedAttribute "type"); ("id", SyncedAttribute "id")].
    repeat split; try reflexivity.
    intros name Hn. cbn [own_lookup].
    not_enhanced_name Hn.
  - exists [("outerHTML", OuterHTMLGetter); ("innerHTML", InnerHTMLGetter);
            ("type", SyncedAttribute "type"); ("id", SyncedAttribute "id")].
    repeat split; try reflexivity.
    intros name Hn. cbn [own_lookup].
    not_enhanced_name Hn.
  - exists [("outerHTML", OuterHTMLGetter); ("innerHTML", InnerHTMLGetter);
            ("textContent", TextContentAccessor); ("id", SyncedAttribute "id")].
    repeat split; try reflexivity.
    intros name Hn. cbn [own_lookup].
    not_enhanced_name Hn.
  - exists [("outerHTML", OuterHTMLGetter); ("innerHTML", InnerHTMLGetter);
            ("id", SyncedAttribute "id")].
    repeat split; try reflexivity.
    intros name Hn. cbn [own_lookup].
    not_enhanced_name Hn.
Qed.

(** X1. Enhancing an element changes neither its attributes nor its
    children; afterwards [id], [innerHTML] and [outerHTML] are defined on
    it whatever the tag, and every own property under another name than
    the five that enhancement may define is as it was. *)
Theorem enhanceElement_frame :
  forall (element : Node) (tagName name : string),
    is_element element = true ->
    ~ In name Further.enhanced_names ->
    let E := Polyfill.enhanceElement element tagName in
    (forall a, getAttribute E a = getAttribute element a) /\
    childNodes E = childNodes element /\
    Polyfill.nodeName E = Polyfill.nodeName element /\
    Spec.SyncedOn E "id" /\
    Spec.InnerHTMLOn E /\
    getOwnPropertyDescriptor E "outerHTML" = Some OuterHTMLGetter /\
    getOwnPropertyDescriptor E name = getOwnPropertyDescriptor element name.
Proof.
  intros element tagName name Hel Hname E. subst E.
  destruct element as [t attrs cs own| | |]; try discriminate.
  destruct (enhanceElement_shape t attrs cs own tagName)
    as [added [-> [Hid [Hin [Hout Hother]]]]].
  cbn [getAttribute childNodes Polyfill.nodeName getOwnPropertyDescriptor].
  unfold Spec.SyncedOn, Spec.InnerHTMLOn.
  cbn [is_element getOwnPropertyDescriptor].
  rewrite !own_lookup_app, Hid, Hin, Hout, (Hother name Hname).
  repeat split; reflexivity.
Qed.

Lemma enhanceElement_frame_witness :
  getOwnPropertyDescriptor
    (Polyfill.enhanceElement
       (Element "div" [("class", "note")] [Text "x"]
                [("title", SyncedAttribute "title")]) "div") "title" =
  Some (SyncedAttribute "title").
Proof.
  refine (proj2 (proj2 (proj2 (proj2 (proj2 (proj2
    (enhanceElement_frame
       (Element "div" [("class", "note")] [Text "x"]
                [("title", SyncedAttribute "title")]) "div" "title" eq_refl _))))))).
  simpl. intros H. repeat (destruct H as [H|H]; [discriminate H|]). exact H.
Defined.

(** The own properties of an enhanced element, written out. *)
Lemma enhanceElement_explicit (t : string) (attrs : list (string * string))
      (cs : list Node) (own : list (string * descriptor)) (tagName : string) :
  Polyfill.enhanceElement (Element t attrs cs own) tagName =
  Element t attrs cs
    (("outerHTML", OuterHTMLGetter) :: ("innerHTML", InnerHTMLGetter) ::
     (if andb (negb (Js.truthy (Polyfill.textContent (Element t attrs cs own))))
              (match own_lookup "textContent" own with
               | None => true
               | Some _ => false
               end)
      then [("textContent", TextContentAccessor)] else []) ++
     (if String.eqb (Js.toLowerCase tagName) "script"
      then [("type", SyncedAttribute "type"); ("id", SyncedAttribute "id")]
      else [("id", SyncedAttribute "id")]) ++ own)%list.
Proof.
  unfold Polyfill.enhanceElement, Polyfill.syncProperties.
  cbn [getOwnPropertyDescriptor].
  destruct (String.eqb (Js.toLowerCase tagName) "script");
    destruct (andb _ _); reflexivity.
Qed.

(** Which accessor [textContent] goes through depends on the own
    property of that name alone. *)
Lemma textContent_own (t : string) (attrs : list (string * string))
      (cs : list Node) (own1 own2 : list (string * descriptor)) :
  own_lookup "textContent" own1 = own_lookup "textContent" own2 ->
  Polyfill.textContent (Element t attrs cs own1) =
  Polyfill.textContent (Element t attrs cs own2).
Proof. intros H. cbn [Polyfill.textContent]. now rewrite H. Qed.

(** X2. Enhancing an element a second time with the same tag changes
    nothing that can be observed: every own accessor is the one the
    first pass left, and the attributes and children are the same. *)
Theorem enhanceElement_twice :
  forall (t : string) (attrs : list (string * string)) (cs : list Node)
         (own : list (string * descriptor)) (tagName name : string),
    let element := Element t attrs cs own in
    getOwnPropertyDescriptor
      (Polyfill.enhanceElement (Polyfill.enhanceElement element tagName) tagName)
      name =
    getOwnPropertyDescriptor (Polyfill.enhanceElement element tagName) name /\
    (forall a,
        getAttribute
          (Polyfill.enhanceElement (Polyfill.enhanceElement element tagName) tagName) a =
        getAttribute element a) /\
    childNodes
      (Polyfill.enhanceElement (Polyfill.enhanceElement element tagName) tagName) =
    childNodes element.
Proof.
  intros t attrs cs own tagName name element. subst element.
  rewrite (enhanceElement_explicit t attrs cs own tagName).
  rewrite enhanceElement_explicit.
  split; [|split; reflexivity].
  cbn [getOwnPropertyDescriptor].
  set (first :=
         andb (negb (Js.truthy (Polyfill.textContent (Element t attrs cs own))))
              (match own_lookup "textContent" own with
               | None => true
               | Some _ => false
               end)).
  match goal with
  | |- context [if andb ?c1 ?c2
                then [("textContent", TextContentAccessor)] else []] =>
      assert (Hsecond : andb c1 c2 = false); [|rewrite Hsecond]
  end.
  - destruct first eqn:Hfirst.
    + destruct (String.eqb (Js.toLowerCase tagName) "script");
        cbn [app own_lookup String.eqb Ascii.eqb Bool.eqb]; apply andb_false_r.
    + transitivity first; [|exact Hfirst]. unfold first.
      cbn [app]. f_equal.
      * f_equal. f_equal. apply textContent_own.
        destruct (String.eqb (Js.toLowerCase tagName) "script"); reflexivity.
      * destruct (String.eqb (Js.toLowerCase tagName) "script"); reflexivity.
  - destruct first;
      destruct (String.eqb (Js.toLowerCase tagName) "script");
      cbn [app own_lookup];
      repeat match goal with
             | |- context [String.eqb ?k name] =>
                 destruct (String.eqb_spec k name) as [<-|?];
                 [reflexivity|]
             end; reflexivity.
Qed.





Lemma attr_store_store (name v1 v2 : string) (attrs : list (string * string)) :
  attr_store name v2 (attr_store name v1 attrs) = attr_store name v2 attrs.
Proof.
  induction attrs as [|[k v] rest IH]; simpl.
  - now rewrite String.eqb_refl.
  - destruct (String.eqb k name) eqn:Hk; simpl; rewrite Hk; [reflexivity|].
    now rewrite IH.
Qed.

Lemma attr_remove_store (name v1 : string) (attrs : list (string * string)) :
  attr_remove name (attr_store name v1 attrs) = attr_remove name attrs.
Proof.
  induction attrs as [|[k v] rest IH]; simpl.
  - now rewrite String.eqb_refl.
  - destruct (String.eqb k name) eqn:Hk; simpl; rewrite Hk; [reflexivity|].
    now rewrite IH.
Qed.

Lemma attr_remove_remove (name : string) (attrs : list (string * string)) :
  attr_remove name (attr_remove name attrs) = attr_remove name attrs.
Proof.
  induction attrs as [|[k v] rest IH]; simpl; [reflexivity|].
  destruct (String.eqb k name) eqn:Hk; simpl; [exact IH|].
  rewrite Hk. now rewrite IH.
Qed.

(** X4. The last assignment to a synced property wins: after
    [E.P = v1; E.P = v2] the element is what [E.P = v2] alone gives,
    whenever [v1] is a value that was stored (or [v2] is one that
    removes); in particular removing twice is removing once. *)
Theorem synced_assignment_overwrites :
  forall (P : string) (E : Node) (v1 v2 : Js.value),
    Js.loosely_null v1 = false \/ Js.loosely_null v2 = true ->
    Polyfill.synced_set P (Polyfill.synced_set P E v1) v2 =
    Polyfill.synced_set P E v2.
Proof.
  intros P E v1 v2 H. unfold Polyfill.synced_set.
  destruct E as [t attrs cs own|d|k d|cs];
    destruct (Js.loosely_null v1) eqn:H1; destruct (Js.loosely_null v2) eqn:H2;
    cbn [negb setAttribute removeAttribute]; try reflexivity;
    try (destruct H; discriminate).
  - now rewrite attr_remove_remove.
  - now rewrite attr_remove_store.
  - now rewrite attr_store_store.
Qed.

Lemma synced_assignment_overwrites_witness :
  Polyfill.synced_set "id"
    (Polyfill.synced_set "id" (Polyfill.createElement "div") (Js.number 1))
    (Js.str "two") =
  Polyfill.synced_set "id" (Polyfill.createElement "div") (Js.str "two").
Proof.
  exact (synced_assignment_overwrites "id" (Polyfill.createElement "div")
           (Js.number 1) (Js.str "two") (or_introl eq_refl)).
Defined.

(* ================================================================== *)
(** ** More on [textContent], [innerHTML] and escaping                  *)
(* ================================================================== *)

Lemma concat_all_app (l1 l2 : list string) :
  Spec.concat_all (l1 ++ l2)%list = Spec.concat_all l1 ++ Spec.concat_all l2.
Proof.
  induction l1 as [|s l1 IH]; simpl; [reflexivity|].
  now rewrite IH, string_app_assoc.
Qed.

Lemma textContent_loop (cs : list Node) :
  forall text : string,
    (fix loop (text : string) (cs : list Node) : string :=
       match cs with
       | [] => text
       | child :: rest =>
           loop (if Z.eqb (nodeType child) 3
                 then text ++ Js.or_empty (nodeValue child)
                 else if Z.eqb (nodeType child) 1
                      then text ++ Js.or_empty (Polyfill.textContent child)
                      else text) rest
       end) text cs =
    text ++ Spec.concat_all (map Further.text_contribution cs).
Proof.
  induction cs as [|child rest IH]; intros text.
  - simpl. now rewrite string_app_empty_r.
  - rewrite IH. cbn [map Spec.concat_all].
    rewrite <- string_app_assoc. f_equal.
    destruct child as [t a cs o|d|k d|cs].
    + reflexivity.
    + unfold nodeValue. rewrite or_empty_some. reflexivity.
    + destruct k; simpl; now rewrite string_app_empty_r.
    + simpl. now rewrite string_app_empty_r.
Qed.

(** The getter in closed form: what each child adds, in child order. *)
Lemma textContent_get_children (E : Node) (cs : list Node) :
  childNodes E = Some cs ->
  Polyfill.textContent_get E =
  Spec.concat_all (map Further.text_contribution cs).
Proof.
  intros H. unfold Polyfill.textContent_get. rewrite H.
  now rewrite textContent_loop.
Qed.

(** X5. Appending a child to an element with the installed accessor
    extends its [textContent] by what the child holds: the data of a text
    node, the [textContent] of an element, and nothing for a comment, a
    CDATA section or a processing instruction. A text node made by the
    patched [createTextNode] adds its data, and nothing when the data is
    [null]. *)
Theorem textContent_after_appendChild :
  forall (toString : Node -> string) (E child : Node),
    Spec.TextContentOn E ->
    Polyfill.get_property toString (appendChild E child) "textContent" =
      Some (Js.str (Polyfill.textContent_get E ++ Further.text_contribution child)) /\
    (forall (k : leaf_kind) (d : string),
        Further.text_contribution (CharacterData k d) = EmptyString) /\
    (forall data : option string,
        Further.text_contribution (Polyfill.createTextNode data) =
        match data with
        | Some d => d
        | None => EmptyString
        end).
Proof.
  intros toString E child [HE HP].
  destruct E as [t attrs cs own| | |]; try discriminate.
  split; [|split].
  - unfold Polyfill.get_property. cbn [appendChild getOwnPropertyDescriptor].
    cbn [getOwnPropertyDescriptor] in HP. rewrite HP.
    cbn [Polyfill.descriptor_get]. do 2 f_equal.
    rewrite (textContent_get_children
               (Element t attrs (cs ++ [child])%list own) _ eq_refl).
    rewrite (textContent_get_children (Element t attrs cs own) _ eq_refl).
    rewrite map_app, concat_all_app. simpl.
    now rewrite string_app_empty_r.
  - reflexivity.
  - intros [d|]; [|reflexivity].
    unfold Polyfill.createTextNode, origCreateTextNode. simpl.
    destruct d; reflexivity.
Qed.

Lemma textContent_after_appendChild_witness :
  Polyfill.get_property (fun _ => EmptyString)
    (appendChild
       (appendChild (Polyfill.createElement "p") (Text "1 + "))
       (CharacterData Comment "hidden"))
    "textContent" = Some (Js.str "1 + ").
Proof.
  exact (proj1 (textContent_after_appendChild
                  (fun _ => EmptyString)
                  (appendChild (Polyfill.createElement "p") (Text "1 + "))
                  (CharacterData Comment "hidden")
                  (conj eq_refl eq_refl))).
Defined.

Lemma escape_app (a b : string) :
  Spec.escape (a ++ b) = Spec.escape a ++ Spec.escape b.
Proof.
  induction a as [|c a IH]; simpl; [reflexivity|].
  now rewrite IH, string_app_assoc.
Qed.

Lemma text_only_children (toString : Node -> string) (cs : list Node) :
  forallb Further.is_text cs = true ->
  Spec.concat_all (map (Spec.child_html toString) cs) =
  Spec.escape (Spec.concat_all (map Further.text_contribution cs)).
Proof.
  induction cs as [|c cs IH]; intros H; [reflexivity|].
  simpl in H. apply andb_true_iff in H. destruct H as [Hc Hcs].
  destruct c as [t a cs' o|d|k d|cs']; try discriminate.
  simpl. now rewrite escape_app, IH.
Qed.

(** X6. For an enhanced element whose children are all text nodes,
    [innerHTML] is the escaped [textContent]; in particular, after
    [E.textContent = s] the element's [innerHTML] is [s] with its [&],
    [<] and [>] escaped, whatever the children were before. *)
Theorem innerHTML_of_text_is_escaped_textContent :
  forall (toString : Node -> string) (E : Node) (cs : list Node),
    Spec.InnerHTMLOn E ->
    Spec.TextContentOn E ->
    childNodes E = Some cs ->
    (forallb Further.is_text cs = true ->
     Polyfill.get_property toString E "innerHTML" =
       Some (Js.str (Polyfill.escape_text (Polyfill.textContent_get E)))) /\
    (forall s : string,
        exists E',
          Polyfill.set_property E "textContent" (Js.str s) = Some E' /\
          Polyfill.get_property toString E' "innerHTML" =
            Some (Js.str (Polyfill.escape_text s))).
Proof.
  intros toString E cs [HE HI] [_ HT] Hcs.
  destruct E as [t attrs cs0 own| | |]; try discriminate.
  cbn [childNodes] in Hcs. injection Hcs as ->.
  assert (Hinner : forall cs',
             Polyfill.get_property toString (Element t attrs cs' own) "innerHTML" =
             Some (Js.str (Spec.concat_all (map (Spec.child_html toString) cs')))).
  { intros cs'. unfold Polyfill.get_property.
    cbn [getOwnPropertyDescriptor] in *. rewrite HI.
    cbn [Polyfill.descriptor_get]. unfold Polyfill.innerHTML_get.
    cbn [childNodes]. now rewrite innerHTML_loop. }
  split.
  - intros Htext. rewrite Hinner. do 2 f_equal.
    rewrite (textContent_get_children (Element t attrs cs own) _ eq_refl),
      escape_text_escape.
    now apply text_only_children.
  - intros s. exists (Element t attrs [Text s] own). split.
    + unfold Polyfill.set_property. cbn [getOwnPropertyDescriptor] in *.
      rewrite HT. cbn [Polyfill.descriptor_set].
      now rewrite textContent_set_string.
    + rewrite Hinner. simpl. do 2 f_equal.
      now rewrite string_app_empty_r, escape_text_escape.
Qed.

Lemma innerHTML_of_text_witness :
  (exists E',
      Polyfill.set_property
        (appendChild (Polyfill.createElement "pre") (Polyfill.createElement "b"))
        "textContent" (Js.str "a < b") = Some E' /\
      Polyfill.get_property (fun _ => "<b/>") E' "innerHTML" =
        Some (Js.str "a &lt; b")) /\
  Polyfill.get_property (fun _ => "<b/>")
    (appendChild (appendChild (Polyfill.createElement "pre") (Text "a"))
                 (Text " < b"))
    "innerHTML" = Some (Js.str "a &lt; b").
Proof.
  split.
  - exact (proj2 (innerHTML_of_text_is_escaped_textContent
                    (fun _ => "<b/>")
                    (appendChild (Polyfill.createElement "pre")
                                 (Polyfill.createElement "b"))
                    [Polyfill.createElement "b"]
                    (conj eq_refl eq_refl) (conj eq_refl eq_refl) eq_refl)
                 "a < b").
  - exact (proj1 (innerHTML_of_text_is_escaped_textContent
                    (fun _ => "<b/>")
                    (appendChild (appendChild (Polyfill.createElement "pre")
                                              (Text "a")) (Text " < b"))
                    [Text "a"; Text " < b"]
                    (conj eq_refl eq_refl) (conj eq_refl eq_refl) eq_refl)
                 eq_refl).
Defined.

(** Looking for a single character. *)
Lemma includes_char_cons (c d : ascii) (s : string) :
  Js.includes (String d s) (String c EmptyString) =
  orb (Ascii.eqb c d) (Js.includes s (String c EmptyString)).
Proof.
  cbn [Js.includes Js.startsWith].
  destruct (Ascii.eqb c d); simpl.
  - destruct s; reflexivity.
  - reflexivity.
Qed.

Lemma includes_char_app (c : ascii) (a b : string) :
  Js.includes (a ++ b) (String c EmptyString) =
  orb (Js.includes a (String c EmptyString)) (Js.includes b (String c EmptyString)).
Proof.
  induction a as [|d a IH].
  - simpl. reflexivity.
  - cbn [append]. rewrite !includes_char_cons, IH. now rewrite orb_assoc.
Qed.

(** X7. The text that [innerHTML] writes for a text node never contains
    [<] or [>], so it cannot open or close a tag; a text without [&], [<]
    and [>] is written as it is. *)
Theorem escaped_text_has_no_angle_brackets :
  forall text : string,
    Js.includes (Polyfill.escape_text text) "<" = false /\
    Js.includes (Polyfill.escape_text text) ">" = false /\
    (Js.includes text "&" = false ->
     Js.includes text "<" = false ->
     Js.includes text ">" = false ->
     Polyfill.escape_text text = text).
Proof.
  intros text. rewrite escape_text_escape.
  induction text as [|c r [IHlt [IHgt IHsame]]].
  - repeat split; reflexivity.
  - cbn [Spec.escape].
    split; [|split].
    + rewrite includes_char_app, IHlt, orb_false_r.
      unfold Spec.escape_char.
      destruct (Ascii.eqb c "&") eqn:Hamp; [reflexivity|].
      destruct (Ascii.eqb c "<") eqn:Hlt; [reflexivity|].
      destruct (Ascii.eqb c ">") eqn:Hgt; [reflexivity|].
      rewrite includes_char_cons. rewrite Ascii.eqb_sym, Hlt. reflexivity.
    + rewrite includes_char_app, IHgt, orb_false_r.
      unfold Spec.escape_char.
      destruct (Ascii.eqb c "&") eqn:Hamp; [reflexivity|].
      destruct (Ascii.eqb c "<") eqn:Hlt; [reflexivity|].
      destruct (Ascii.eqb c ">") eqn:Hgt; [reflexivity|].
      rewrite includes_char_cons. rewrite Ascii.eqb_sym, Hgt. reflexivity.
    + rewrite !includes_char_cons. intros Hamp Hlt Hgt.
      apply orb_false_iff in Hamp, Hlt, Hgt.
      destruct Hamp as [Hamp Hamp'], Hlt as [Hlt Hlt'], Hgt as [Hgt Hgt'].
      rewrite (IHsame Hamp' Hlt' Hgt').
      unfold Spec.escape_char.
      rewrite Ascii.eqb_sym in Hamp, Hlt, Hgt.
      now rewrite Hamp, Hlt, Hgt.
Qed.

Lemma escaped_text_witness :
  Polyfill.escape_text "say 'hi' twice" = "say 'hi' twice".
Proof.
  exact (proj2 (proj2 (escaped_text_has_no_angle_brackets "say 'hi' twice"))
               eq_refl eq_refl eq_refl).
Defined.

(* ================================================================== *)
(** ** Where the two adapters agree                                     *)
(* ================================================================== *)

Lemma textContent_of_non_document (n : Node) :
  nodeType n <> 9%Z -> exists t, Polyfill.textContent n = Some t.
Proof.
  intros H. destruct n as [t a cs o|d|k d|cs]; cbn [Polyfill.textContent].
  - destruct (own_lookup "textContent" o) as [[]|]; eexists; reflexivity.
  - eexists; reflexivity.
  - eexists; reflexivity.
  - exfalso. apply H. reflexivity.
Qed.

(** X8. Apart from the two differences in [getAttributeValue] and
    [getChildren], the serializer's adapter answers like the polyfill's:
    [isTag] and [getName] agree on every node; the serializer's children
    filtered by [isTag] are the polyfill's children; on elements
    [hasAttrib] agrees, and [getAttributeValue] agrees unless the
    attribute is present with the empty string as value; [getText] agrees
    on every node but a document. *)
Theorem adapters_agree_elsewhere :
  forall (n : Node) (name : string),
    Polyfill.isTag Polyfill.xmldomAdapter n = Polyfill.isTag Serializer.xmldomAdapter n /\
    Polyfill.getName Polyfill.xmldomAdapter n =
      Polyfill.getName Serializer.xmldomAdapter n /\
    filter (Polyfill.isTag Serializer.xmldomAdapter)
           (Polyfill.getChildren Serializer.xmldomAdapter n) =
      Polyfill.getChildren Polyfill.xmldomAdapter n /\
    (is_element n = true ->
     Polyfill.hasAttrib Polyfill.xmldomAdapter n name =
       Polyfill.hasAttrib Serializer.xmldomAdapter n name) /\
    (is_element n = true ->
     getAttribute n name <> Some EmptyString ->
     Polyfill.getAttributeValue Serializer.xmldomAdapter n name =
       Polyfill.getAttributeValue Polyfill.xmldomAdapter n name) /\
    (nodeType n <> 9%Z ->
     Polyfill.getText Polyfill.xmldomAdapter n =
       Polyfill.getText Serializer.xmldomAdapter n).
Proof.
  intros n name. cbn [Polyfill.isTag Polyfill.getName Polyfill.getChildren
                      Polyfill.hasAttrib Polyfill.getAttributeValue Polyfill.getText
                      Polyfill.xmldomAdapter Serializer.xmldomAdapter].
  split; [reflexivity|]. split; [|split; [|split; [|split]]].
  - unfold Polyfill.adapter_getName, Serializer.adapter_getName.
    destruct (Polyfill.nodeName n) as [|c r]; [reflexivity|].
    cbn [Js.truthy_string Js.toLowerCase]. reflexivity.
  - unfold Polyfill.adapter_getChildren, Serializer.adapter_getChildren.
    destruct (childNodes n) as [cs|]; [|reflexivity].
    rewrite getChildren_loop. simpl. apply filter_ext. intros c.
    destruct c as [t a cs' o|d|k d|cs']; try destruct k; reflexivity.
  - intros He. unfold Polyfill.adapter_hasAttrib, Serializer.adapter_hasAttrib.
    now rewrite He.
  - intros He Hne.
    unfold Polyfill.adapter_getAttributeValue, Serializer.adapter_getAttributeValue.
    unfold has_getAttribute. rewrite He. cbn [negb].
    destruct (getAttribute n name) as [[|c r]|]; try reflexivity. congruence.
  - intros Hdoc.
    unfold Polyfill.adapter_getText, Serializer.adapter_getText.
    destruct (textContent_of_non_document n Hdoc) as [t ->].
    now rewrite or_empty_some.
Qed.

Lemma adapters_agree_witness :
  Polyfill.getAttributeValue Serializer.xmldomAdapter Spec.sample_script "type" =
    Polyfill.getAttributeValue Polyfill.xmldomAdapter Spec.sample_script "type" /\
  Polyfill.getText Polyfill.xmldomAdapter Spec.sample_script =
    Polyfill.getText Serializer.xmldomAdapter Spec.sample_script /\
  Polyfill.hasAttrib Polyfill.xmldomAdapter Spec.sample_script "type" =
    Polyfill.hasAttrib Serializer.xmldomAdapter Spec.sample_script "type".
Proof.
  destruct (adapters_agree_elsewhere Spec.sample_script "type")
    as [_ [_ [_ [Hhas [Hval Htext]]]]].
  split; [|split].
  - apply Hval; [reflexivity | discriminate].
  - apply Htext. discriminate.
  - apply Hhas. reflexivity.
Defined.

(** X9. In the polyfill's adapter [hasAttrib] and [getAttributeValue]
    tell the same story on every node: the attribute is reported present
    exactly when its value is defined. In the serializer's adapter only
    one direction holds: a defined value means a present attribute. *)
Theorem hasAttrib_matches_getAttributeValue :
  forall (n : Node) (name : string),
    Polyfill.hasAttrib Polyfill.xmldomAdapter n name =
      match Polyfill.getAttributeValue Polyfill.xmldomAdapter n name with
      | Some _ => true
      | None => false
      end /\
    match Polyfill.getAttributeValue Serializer.xmldomAdapter n name with
    | Some _ => Polyfill.hasAttrib Serializer.xmldomAdapter n name = true
    | None => True
    end.
Proof.
  intros n name. cbn [Polyfill.hasAttrib Polyfill.getAttributeValue
                      Polyfill.xmldomAdapter Serializer.xmldomAdapter].
  unfold Polyfill.adapter_hasAttrib, Polyfill.adapter_getAttributeValue,
    Serializer.adapter_hasAttrib, Serializer.adapter_getAttributeValue,
    has_getAttribute, hasAttribute.
  destruct n as [t a cs o|d|k d|cs]; cbn [is_element negb getAttribute];
    try (split; [reflexivity | exact I]).
  destruct (attr_lookup name a) as [[|c r]|]; repeat split; reflexivity.
Qed.

(* ================================================================== *)
(** ** The sequence of [querySelectorAll]                               *)
(* ================================================================== *)

Lemma indexed_nth (results : list Node) :
  forall (k i : nat) (x : Node),
    nth_error results i = Some x ->
    nth_error (combine results (seq k (length results))) i = Some (x, k + i).
Proof.
  induction results as [|y r IH]; intros k i x H.
  - destruct i; discriminate.
  - destruct i as [|i]; simpl in *.
    + injection H as ->. now rewrite Nat.add_0_r.
    + rewrite (IH (S k) i x H). now rewrite Nat.add_succ_r.
Qed.

(** X10. On the sequence the global [querySelectorAll] returns when the
    engine returns [results]: [item(i)] is the element at [i] for
    [0 <= i < length], and [null] for a negative index or one past the
    end; [forEach] calls back once per element, in order, the [i]-th call
    with the element at [i] and the index [i]; nothing is logged. *)
Theorem querySelectorAll_item_and_forEach :
  forall (selectAll : Polyfill.Adapter -> string -> Node -> Js.outcome (list Node))
         (this : Node) (selector : string) (results : list Node),
    selectAll Polyfill.xmldomAdapter selector this = Js.Ret results ->
    exists l,
      Polyfill.document_querySelectorAll selectAll this selector = (Js.Ret l, []) /\
      (forall (i : nat) (x : Node),
          nth_error results i = Some x ->
          Polyfill.call_item l (Z.of_nat i) = Js.Ret (Some x)) /\
      (forall index : Z,
          (index < 0 \/ Z.of_nat (length results) <= index)%Z ->
          Polyfill.call_item l index = Js.Ret None) /\
      length (Polyfill.call_forEach l) = length results /\
      (forall (i : nat) (x : Node),
          nth_error results i = Some x ->
          nth_error (Polyfill.call_forEach l) i = Some (x, i)).
Proof.
  intros selectAll this selector results H.
  unfold Polyfill.document_querySelectorAll. rewrite H. simpl.
  eexists. split; [reflexivity|].
  unfold Polyfill.call_item, Polyfill.call_forEach, Polyfill.at_index,
    Polyfill.indexed. cbn [Polyfill.own_item Polyfill.own_forEach Polyfill.entries].
  split; [|split; [|split]].
  - intros i x Hx.
    destruct (Z.ltb_spec (Z.of_nat i) 0) as [Hneg|_]; [lia|].
    now rewrite Nat2Z.id, Hx.
  - intros index [Hneg|Hbig].
    + destruct (Z.ltb_spec index 0) as [_|Hge]; [reflexivity | lia].
    + destruct (Z.ltb_spec index 0) as [_|Hge]; [reflexivity|].
      assert (Hnone : nth_error results (Z.to_nat index) = None)
        by (apply nth_error_None; lia).
      now rewrite Hnone.
  - rewrite length_combine, length_seq. apply Nat.min_id.
  - intros i x Hx. now rewrite (indexed_nth results 0 i x Hx).
Qed.

Lemma querySelectorAll_item_witness :
  exists l,
    Polyfill.document_querySelectorAll Spec.tag_selectAll Spec.sample_document
                                       "script" = (Js.Ret l, []) /\
    Polyfill.call_item l 0 = Js.Ret (Some Spec.sample_script) /\
    Polyfill.call_item l 1 = Js.Ret None /\
    nth_error (Polyfill.call_forEach l) 0 = Some (Spec.sample_script, 0).
Proof.
  destruct (querySelectorAll_item_and_forEach
              Spec.tag_selectAll Spec.sample_document "script"
              [Spec.sample_script] eq_refl)
    as [l [H [Hitem [Hout [_ Heach]]]]].
  exists l. split; [exact H|]. split; [|split].
  - exact (Hitem 0 Spec.sample_script eq_refl).
  - apply Hout. right. simpl. lia.
  - exact (Heach 0 Spec.sample_script eq_refl).
Defined.

(* ================================================================== *)
(** ** More on reading a notebook                                       *)
(* ================================================================== *)

(** X11. A document is taken for a notebook exactly when it contains
    both markers, anywhere and in any order, in these very letters. When
    it does and the library's [deserialize] throws, the error is not
    caught: the promise of [deserializeNotebook] is rejected with it. *)
Theorem deserializeNotebook_rejects_with_library_error :
  forall deserialize decode selectOne selectAll base_parseFromString
         (content : list Byte.byte),
    (Serializer.isObservableKitFormat (decode content) = true <->
     Spec.Substring "<notebook" (decode content) /\
     Spec.Substring "<!doctype html>" (decode content)) /\
    (forall e : Js.error,
        Spec.Substring "<notebook" (decode content) ->
        Spec.Substring "<!doctype html>" (decode content) ->
        deserialize
          (Serializer.parseFromString selectOne selectAll base_parseFromString)
          (decode content) = Js.Throw e ->
        Serializer.deserializeNotebook
          deserialize decode selectOne selectAll base_parseFromString content =
        Js.Rejected e).
Proof.
  intros deserialize decode selectOne selectAll base content.
  assert (Hformat : Serializer.isObservableKitFormat (decode content) = true <->
                    Spec.Substring "<notebook" (decode content) /\
                    Spec.Substring "<!doctype html>" (decode content)).
  { unfold Serializer.isObservableKitFormat.
    now rewrite andb_true_iff, !includes_spec. }
  split; [exact Hformat|].
  intros e H1 H2 Hthrow. unfold Serializer.deserializeNotebook.
  rewrite (proj2 Hformat (conj H1 H2)).
  unfold Serializer.deserializeObservableKitNotebook. now rewrite Hthrow.
Qed.

Lemma deserializeNotebook_rejects_witness :
  Serializer.deserializeNotebook
    Further.failing_deserialize Spec.sample_decode
    Spec.tag_selectOne Spec.tag_selectAll (fun _ _ => Spec.sample_document)
    (list_byte_of_string "<notebook></notebook><!doctype html>") =
  Js.Rejected (Js.Error "Malformed notebook").
Proof.
  apply (proj2 (deserializeNotebook_rejects_with_library_error
                  Further.failing_deserialize Spec.sample_decode
                  Spec.tag_selectOne Spec.tag_selectAll
                  (fun _ _ => Spec.sample_document)
                  (list_byte_of_string "<notebook></notebook><!doctype html>"))).
  - apply includes_spec. reflexivity.
  - apply includes_spec. reflexivity.
  - reflexivity.
Defined.

Lemma cell_data_markup (cell : Serializer.Cell) :
  (Serializer.kind (Serializer.cell_data cell) = Serializer.Markup <->
   Serializer.cell_mode cell = "md") /\
  (Serializer.languageId (Serializer.cell_data cell) = "markdown" <->
   Serializer.cell_mode cell = "md") /\
  Serializer.languageId (Serializer.cell_data cell) <> EmptyString.
Proof.
  unfold Serializer.cell_data.
  cbn [Serializer.kind Serializer.languageId].
  generalize (Serializer.cell_mode cell). intros mode.
  destruct (String.eqb_spec mode "md") as [->|Hmd].
  - cbn. repeat split; intros; try reflexivity; discriminate.
  - split; [split; [discriminate | contradiction]|].
    cbn [Serializer.map_lookup Serializer.OBSERVABLE_TO_VSCODE_MODE_MAP].
    repeat match goal with
           | |- context [String.eqb ?k mode] =>
               destruct (String.eqb_spec k mode) as [<-|?];
               [first [ congruence
                      | cbn; split; [split; [discriminate | congruence]
                                    | discriminate] ]|]
           end.
    cbn. split; [split; [discriminate | contradiction] | discriminate].
Qed.

(** X12. When the library returns a notebook, the notebook data holds
    one cell per source cell, in order, with the source value and id;
    the library's notebook is its metadata; a cell is a markup cell
    exactly when its language is [markdown], which is exactly when the
    source mode is [md]; and no cell has an empty language. *)
Theorem deserialized_cells_keep_source :
  forall deserialize selectOne selectAll base_parseFromString
         (content : string) (notebook : Serializer.Notebook),
    deserialize
      (Serializer.parseFromString selectOne selectAll base_parseFromString)
      content = Js.Ret notebook ->
    exists data,
      Serializer.deserializeObservableKitNotebook
        deserialize selectOne selectAll base_parseFromString content = Js.Ret data /\
      Serializer.data_metadata data = notebook /\
      map Serializer.value (Serializer.data_cells data) =
        map Serializer.cell_value (Serializer.cells notebook) /\
      map (fun c => Serializer.cell_id (Serializer.metadata c))
          (Serializer.data_cells data) =
        map Serializer.cell_id (Serializer.cells notebook) /\
      map (fun c => Serializer.cell_mode (Serializer.metadata c))
          (Serializer.data_cells data) =
        map Serializer.cell_mode (Serializer.cells notebook) /\
      Forall (fun c =>
                (Serializer.kind c = Serializer.Markup <->
                 Serializer.languageId c = "markdown") /\
                (Serializer.kind c = Serializer.Markup <->
                 Serializer.cell_mode (Serializer.metadata c) = "md") /\
                Serializer.languageId c <> EmptyString)
             (Serializer.data_cells data).
Proof.
  intros deserialize selectOne selectAll base content notebook H.
  eexists. split; [apply deserializeObservableKitNotebook_cells; exact H|].
  cbn [Serializer.data_metadata Serializer.data_cells].
  assert (Hmode : forall c, Serializer.cell_mode (Serializer.metadata (Serializer.cell_data c))
                            = Serializer.cell_mode c).
  { intros c. unfold Serializer.cell_data. cbn [Serializer.metadata].
    destruct (Serializer.cell_pinned c); reflexivity. }
  assert (Hid : forall c, Serializer.cell_id (Serializer.metadata (Serializer.cell_data c))
                          = Serializer.cell_id c).
  { intros c. unfold Serializer.cell_data. cbn [Serializer.metadata].
    destruct (Serializer.cell_pinned c); reflexivity. }
  split; [reflexivity|]. rewrite !map_map.
  split; [reflexivity|].
  split; [apply map_ext; exact Hid|].
  split; [apply map_ext; exact Hmode|].
  apply Forall_forall. intros c Hc.
  apply in_map_iff in Hc. destruct Hc as [cell [<- _]].
  destruct (cell_data_markup cell) as [Hkind [Hlang Hne]].
  rewrite Hmode. split; [|split; [exact Hkind | exact Hne]].
  rewrite Hkind, Hlang. tauto.
Qed.

Lemma deserialized_cells_keep_source_witness :
  exists data,
    Serializer.deserializeObservableKitNotebook
      Spec.sample_deserialize Spec.tag_selectOne Spec.tag_selectAll
      (fun _ _ => Spec.sample_document) "<!doctype html><notebook/>" = Js.Ret data /\
    map Serializer.value (Serializer.data_cells data) = ["1 + 1"; "1 + 1"; "1 + 1"].
Proof.
  destruct (deserialized_cells_keep_source
              Spec.sample_deserialize Spec.tag_selectOne Spec.tag_selectAll
              (fun _ _ => Spec.sample_document) "<!doctype html><notebook/>"
              Spec.sample_notebook eq_refl)
    as [data [H [_ [Hvalues _]]]].
  exists data. split; [exact H | exact Hvalues].
Defined.

(* ================================================================== *)
(** ** Saving a notebook                                                *)
(* ================================================================== *)

Section SavingProofs.

Variable parseInt : string -> option Z.

Lemma push_cell_step (before : list Saving.CellInput) (acc : list Saving.KitCell)
      (cell : Saving.CellInput) :
  Saving.push_cell parseInt
    (acc, (1 + Z.of_nat (length (filter Further.without_id before)))%Z) cell =
  ((acc ++ [Further.saved_at parseInt before cell])%list,
   (1 + Z.of_nat (length (filter Further.without_id (before ++ [cell])%list)))%Z).
Proof.
  unfold Saving.push_cell, Further.saved_at, Further.saved_mode.
  cbn [fst snd]. rewrite filter_app, length_app. cbn [filter].
  replace (Further.without_id cell)
    with (negb (Saving.truthy_value (Saving.metadata_id cell))) by reflexivity.
  destruct (Saving.truthy_value (Saving.metadata_id cell)); cbn [negb fst snd length].
  - f_equal. lia.
  - f_equal. lia.
Qed.

(** The loop with its counter, in closed form. *)
Lemma push_cell_loop (cells : list Saving.CellInput) :
  forall (before : list Saving.CellInput) (acc : list Saving.KitCell),
    fst (fold_left (Saving.push_cell parseInt) cells
           (acc, (1 + Z.of_nat (length (filter Further.without_id before)))%Z)) =
    (acc ++ Further.saved_from parseInt before cells)%list.
Proof.
  induction cells as [|cell rest IH]; intros before acc.
  - simpl. now rewrite app_nil_r.
  - cbn [fold_left Further.saved_from].
    rewrite push_cell_step, IH. now rewrite <- app_assoc.
Qed.

Lemma saved_from_nth (cells : list Saving.CellInput) :
  forall (before : list Saving.CellInput) (i : nat) (cell : Saving.CellInput),
    nth_error cells i = Some cell ->
    nth_error (Further.saved_from parseInt before cells) i =
    Some (Further.saved_at parseInt (before ++ firstn i cells)%list cell).
Proof.
  induction cells as [|c rest IH]; intros before i cell H.
  - destruct i; discriminate.
  - destruct i as [|i]; simpl in *.
    + injection H as ->. now rewrite app_nil_r.
    + rewrite (IH _ _ _ H). now rewrite <- app_assoc.
Qed.

Lemma saved_from_fresh (cells : list Saving.CellInput) :
  forall before : list Saving.CellInput,
    forallb Further.without_id cells = true ->
    map Saving.kit_id (Further.saved_from parseInt before cells) =
    map (fun i => Some (Z.of_nat i))
        (seq (1 + length (filter Further.without_id before)) (length cells)).
Proof.
  induction cells as [|c rest IH]; intros before H; [reflexivity|].
  simpl in H. apply andb_true_iff in H. destruct H as [Hc Hrest].
  cbn [Further.saved_from map length seq]. f_equal.
  - unfold Further.saved_at. cbn [Saving.kit_id].
    unfold Further.without_id in Hc. apply negb_true_iff in Hc. rewrite Hc.
    f_equal. lia.
  - rewrite (IH _ Hrest). rewrite filter_app, length_app. cbn [filter].
    rewrite Hc. cbn [length]. f_equal. f_equal. lia.
Qed.

Lemma build_notebook_cells (data : Saving.NotebookInput) :
  Saving.kit_cells (Saving.build_notebook parseInt data) =
  Further.saved_from parseInt [] (Saving.input_cells data).
Proof.
  unfold Saving.build_notebook. cbn [Saving.kit_cells].
  exact (push_cell_loop (Saving.input_cells data) [] []).
Qed.

End SavingProofs.

(** X13. The cell saved at a place of the notebook is made from the
    cell of the editor at that place: its value; the mode for its
    language, [js] when the table has none; [pinned], with [false] for a
    missing or [null] one; and as id the parsed id of its metadata when
    that id is truthy, otherwise one more than the number of cells before
    it without such an id. So for cells that all lack an id the ids are
    1, 2, 3 and so on, in order. *)
Theorem saved_cell_at_each_place :
  forall (parseInt : string -> option Z) (data : Saving.NotebookInput),
    (forall (i : nat) (cell : Saving.CellInput),
        nth_error (Saving.input_cells data) i = Some cell ->
        nth_error (Saving.kit_cells (Saving.build_notebook parseInt data)) i =
        Some (Further.saved_at parseInt (firstn i (Saving.input_cells data)) cell)) /\
    (forallb Further.without_id (Saving.input_cells data) = true ->
     map Saving.kit_id (Saving.kit_cells (Saving.build_notebook parseInt data)) =
     map (fun i => Some (Z.of_nat i)) (seq 1 (length (Saving.input_cells data)))).
Proof.
  intros parseInt data. rewrite build_notebook_cells. split.
  - intros i cell H. now rewrite (saved_from_nth parseInt _ [] i cell H).
  - intros H. exact (saved_from_fresh parseInt _ [] H).
Qed.

Lemma saved_cell_at_each_place_witness :
  map Saving.kit_id
      (Saving.kit_cells
         (Saving.build_notebook Further.decimal_parseInt
            {| Saving.input_cells :=
                 [Further.fresh_cell "# Title" "markdown";
                  Further.fresh_cell "1 + 1" "javascript";
                  Further.fresh_cell "p { }" "css"];
               Saving.input_document := None |})) =
  [Some 1%Z; Some 2%Z; Some 3%Z] /\
  nth_error
    (Saving.kit_cells
       (Saving.build_notebook Further.decimal_parseInt
          {| Saving.input_cells :=
               [Further.fresh_cell "# Title" "markdown";
                Further.fresh_cell "1 + 1" "javascript";
                Further.fresh_cell "p { }" "css"];
             Saving.input_document := None |})) 2 =
  Some {| Saving.kit_id := Some 3%Z;
          Saving.kit_value := "p { }";
          Saving.kit_mode := "html";
          Saving.kit_pinned := Js.boolean false |}.
Proof.
  split.
  - exact (proj2 (saved_cell_at_each_place Further.decimal_parseInt
                    {| Saving.input_cells :=
                         [Further.fresh_cell "# Title" "markdown";
                          Further.fresh_cell "1 + 1" "javascript";
                          Further.fresh_cell "p { }" "css"];
                       Saving.input_document := None |}) eq_refl).
  - exact (proj1 (saved_cell_at_each_place Further.decimal_parseInt
                    {| Saving.input_cells :=
                         [Further.fresh_cell "# Title" "markdown";
                          Further.fresh_cell "1 + 1" "javascript";
                          Further.fresh_cell "p { }" "css"];
                       Saving.input_document := None |})
                 2 (Further.fresh_cell "p { }" "css") eq_refl).
Defined.

(** A mode that the table knows comes back from the language it is given
    in the editor; any other mode comes back as [js]. *)
Lemma mode_round_trip (cell : Serializer.Cell) :
  Further.saved_mode (Serializer.languageId (Serializer.cell_data cell)) =
  if Further.known_mode (Serializer.cell_mode cell)
  then Serializer.cell_mode cell else "js".
Proof.
  unfold Serializer.cell_data, Further.known_mode.
  cbn [Serializer.languageId].
  generalize (Serializer.cell_mode cell). intros mode.
  cbn [Serializer.map_lookup Serializer.OBSERVABLE_TO_VSCODE_MODE_MAP].
  repeat match goal with
         | |- context [String.eqb ?k mode] =>
             destruct (String.eqb_spec k mode) as [<-|?]; [reflexivity|]
         end.
  reflexivity.
Qed.

Lemma saved_at_source_cell (parseInt : string -> option Z)
      (before : list Saving.CellInput) (cell : Serializer.Cell) :
  Serializer.cell_id cell <> 0%Z ->
  parseInt (Js.String_ (Js.number (Serializer.cell_id cell))) =
    Some (Serializer.cell_id cell) ->
  Further.saved_at parseInt before
    (Saving.cell_as_input (Serializer.cell_data cell)) =
  Further.saved_cell cell.
Proof.
  intros Hid Hparse.
  unfold Further.saved_at, Further.saved_cell.
  change (Saving.input_languageId (Saving.cell_as_input (Serializer.cell_data cell)))
    with (Serializer.languageId (Serializer.cell_data cell)).
  change (Saving.input_value (Saving.cell_as_input (Serializer.cell_data cell)))
    with (Serializer.cell_value cell).
  rewrite mode_round_trip. f_equal.
  - unfold Saving.cell_as_input, Saving.metadata_id, Serializer.cell_data.
    cbn [Saving.input_metadata Saving.meta_id Serializer.metadata].
    destruct (Serializer.cell_pinned cell); cbn [Serializer.cell_id];
      cbn [Saving.truthy_value];
      (destruct (Z.eqb_spec (Serializer.cell_id cell) 0) as [H0|_];
       [contradiction | exact Hparse]).
  - unfold Saving.cell_as_input, Saving.metadata_pinned, Serializer.cell_data.
    cbn [Saving.input_metadata Saving.meta_pinned Serializer.metadata].
    destruct (Serializer.cell_pinned cell) eqn:Hp; cbn [Serializer.cell_pinned];
      rewrite ?Hp; reflexivity.
Qed.

Lemma saved_from_source_cells (parseInt : string -> option Z)
      (cells : list Serializer.Cell) :
  forall before : list Saving.CellInput,
    Forall (fun c =>
              Serializer.cell_id c <> 0%Z /\
              parseInt (Js.String_ (Js.number (Serializer.cell_id c))) =
                Some (Serializer.cell_id c)) cells ->
    Further.saved_from parseInt before
      (map Saving.cell_as_input (map Serializer.cell_data cells)) =
    map Further.saved_cell cells.
Proof.
  induction cells as [|c rest IH]; intros before H; [reflexivity|].
  inversion H as [|c' rest' [Hid Hparse] Hrest]; subst.
  cbn [map Further.saved_from]. f_equal.
  - now apply saved_at_source_cell.
  - now apply IH.
Qed.

(** X14. Saving what was read keeps the cells. For notebook data that
    deserialization produced from a notebook whose cell ids are not zero
    (and are read back by [parseInt] from their decimal form), the
    notebook handed to the library's [serialize] has, cell by cell, the
    source id and value, the source mode when the table knows it and [js]
    otherwise, and [pinned] as a boolean; [readOnly] is kept, and so are
    a title and a theme that are not empty. *)
Theorem saving_after_reading_keeps_cells :
  forall (parseInt : string -> option Z) deserialize selectOne selectAll
         base_parseFromString (content : string) (data : Serializer.NotebookData),
    Serializer.deserializeObservableKitNotebook
      deserialize selectOne selectAll base_parseFromString content = Js.Ret data ->
    Forall (fun c =>
              Serializer.cell_id c <> 0%Z /\
              parseInt (Js.String_ (Js.number (Serializer.cell_id c))) =
                Some (Serializer.cell_id c))
           (Serializer.cells (Serializer.data_metadata data)) ->
    let saved := Saving.build_notebook parseInt (Saving.data_as_input data) in
    Saving.kit_cells saved =
      map Further.saved_cell (Serializer.cells (Serializer.data_metadata data)) /\
    Saving.kit_readOnly saved = Serializer.readOnly (Serializer.data_metadata data) /\
    Saving.kit_title saved =
      (if Js.truthy_string (Serializer.title (Serializer.data_metadata data))
       then Serializer.title (Serializer.data_metadata data)
       else "Untitled Notebook") /\
    Saving.kit_theme saved =
      (if Js.truthy_string (Serializer.theme (Serializer.data_metadata data))
       then Serializer.theme (Serializer.data_metadata data)
       else "air").
Proof.
  intros parseInt deserialize selectOne selectAll base content data Hread Hcells saved.
  subst saved.
  unfold Serializer.deserializeObservableKitNotebook in Hread.
  destruct (deserialize _ content) as [notebook|e]; [|discriminate].
  cbn [Js.and_then] in Hread. injection Hread as <-.
  cbn [Serializer.data_metadata] in *.
  split; [|split; [|split]].
  - rewrite build_notebook_cells. unfold Saving.data_as_input.
    cbn [Saving.input_cells Serializer.data_cells].
    rewrite cells_loop. cbn [app].
    now apply saved_from_source_cells.
  - unfold Saving.build_notebook, Saving.data_as_input.
    cbn [Saving.kit_readOnly Saving.input_document Serializer.data_metadata].
    now destruct (Serializer.readOnly notebook).
  - reflexivity.
  - reflexivity.
Qed.

Lemma saving_after_reading_witness :
  Saving.kit_cells
    (Saving.build_notebook Further.decimal_parseInt
       (Saving.data_as_input
          {| Serializer.data_cells :=
               map Serializer.cell_data (Serializer.cells Spec.sample_notebook);
             Serializer.data_metadata := Spec.sample_notebook |})) =
  map Further.saved_cell (Serializer.cells Spec.sample_notebook).
Proof.
  refine (proj1 (saving_after_reading_keeps_cells
                   Further.decimal_parseInt Spec.sample_deserialize
                   Spec.tag_selectOne Spec.tag_selectAll
                   (fun _ _ => Spec.sample_document) "<!doctype html><notebook/>"
                   {| Serializer.data_cells :=
                        map Serializer.cell_data (Serializer.cells Spec.sample_notebook);
                      Serializer.data_metadata := Spec.sample_notebook |}
                   eq_refl _)).
  repeat constructor; discriminate.
Defined.

Lemma saved_mode_not_empty (languageId : string) :
  Further.saved_mode languageId <> EmptyString.
Proof.
  unfold Further.saved_mode.
  cbn [Serializer.map_lookup Saving.VSCODE_TO_OBSERVABLE_MODE_MAP].
  repeat match goal with
         | |- context [String.eqb ?k languageId] =>
             destruct (String.eqb k languageId); [discriminate|]
         end.
  discriminate.
Qed.

Lemma saved_from_well_formed (parseInt : string -> option Z)
      (cells : list Saving.CellInput) :
  forall before : list Saving.CellInput,
    map Saving.kit_value (Further.saved_from parseInt before cells) =
      map Saving.input_value cells /\
    Forall (fun c =>
              Saving.kit_pinned c <> Js.undefined /\
              Saving.kit_pinned c <> Js.null /\
              Saving.kit_mode c <> EmptyString)
           (Further.saved_from parseInt before cells).
Proof.
  induction cells as [|c rest IH]; intros before.
  - split; [reflexivity | constructor].
  - destruct (IH (before ++ [c])%list) as [Hvalues Hall].
    cbn [Further.saved_from map]. split.
    + now rewrite Hvalues.
    + constructor; [|exact Hall].
      unfold Further.saved_at.
      cbn [Saving.kit_pinned Saving.kit_mode].
      split; [|split; [|apply saved_mode_not_empty]];
        destruct (Saving.metadata_pinned c); discriminate.
Qed.

(** X15. Whatever the editor hands over, the notebook given to the
    library's [serialize] is complete: one cell per cell of the editor
    with its value, in order; every cell with a [pinned] that is neither
    [undefined] nor [null] and a mode that is not empty; a title and a
    theme that are not empty. *)
Theorem saved_notebook_is_complete :
  forall (parseInt : string -> option Z) (data : Saving.NotebookInput),
    map Saving.kit_value (Saving.kit_cells (Saving.build_notebook parseInt data)) =
      map Saving.input_value (Saving.input_cells data) /\
    Forall (fun c =>
              Saving.kit_pinned c <> Js.undefined /\
              Saving.kit_pinned c <> Js.null /\
              Saving.kit_mode c <> EmptyString)
           (Saving.kit_cells (Saving.build_notebook parseInt data)) /\
    Saving.kit_title (Saving.build_notebook parseInt data) <> EmptyString /\
    Saving.kit_theme (Saving.build_notebook parseInt data) <> EmptyString.
Proof.
  intros parseInt data. rewrite build_notebook_cells.
  destruct (saved_from_well_formed parseInt (Saving.input_cells data) [])
    as [Hvalues Hall].
  split; [exact Hvalues|]. split; [exact Hall|].
  unfold Saving.build_notebook. cbn [Saving.kit_title Saving.kit_theme].
  destruct (Saving.input_document data) as [[[t|] [th|] r]|];
    try destruct t; try destruct th; split; discriminate.
Qed.

(* ================================================================== *)
(** ** More on [removeSubsets]                                          *)
(* ================================================================== *)

Section MoreIndexedArrays.
Context {A : Type}.

Lemma filter_from_subsequence (f : nat -> A -> bool) (l : list A) :
  forall k : nat, Further.subsequence l (Js.filter_from f k l).
Proof.
  induction l as [|x r IH]; intros k; simpl.
  - constructor.
  - destruct (f k x); constructor; apply IH.
Qed.

Lemma filter_from_all (f : nat -> A -> bool) (l : list A) :
  forall k : nat,
    (forall i x, In x l -> f i x = true) -> Js.filter_from f k l = l.
Proof.
  induction l as [|x r IH]; intros k H; simpl; [reflexivity|].
  rewrite (H k x (or_introl eq_refl)). f_equal.
  apply IH. intros i y Hy. apply H. now right.
Qed.

Lemma some_from_none (g : nat -> A -> bool) (l : list A) :
  forall k : nat,
    (forall j x, In x l -> g j x = false) -> Js.some_from g k l = false.
Proof.
  induction l as [|x r IH]; intros k H; simpl; [reflexivity|].
  rewrite (H k x (or_introl eq_refl)).
  apply IH. intros j y Hy. apply H. now right.
Qed.

Lemma kept_in_order_NoDup (P : A -> Prop) (l out : list A) :
  Spec.kept_in_order P l out -> NoDup l -> NoDup out.
Proof.
  intros H. induction H as [|x l out Hx Hk IH|x l out Hx Hk IH]; intros Hnd.
  - constructor.
  - inversion Hnd as [|x' l' Hnotin Hrest]; subst. constructor.
    + intros Hin. apply Hnotin.
      now apply (proj1 (kept_in_order_In P l out Hk x)).
    + now apply IH.
  - inversion Hnd; subst. now apply IH.
Qed.

Lemma kept_in_order_all (Q : A -> Prop) (l out : list A) :
  Spec.kept_in_order Q l out -> Forall Q l -> out = l.
Proof.
  intros H. induction H as [|x l out Hx Hk IH|x l out Hx Hk IH]; intros Hall.
  - reflexivity.
  - inversion Hall; subst. f_equal. now apply IH.
  - inversion Hall; subst. contradiction.
Qed.

End MoreIndexedArrays.

(** X16. [removeSubsets] only ever leaves nodes out: its result is the
    input with some members dropped, in the same order, for any nodes
    whatever. When no node of the sequence has a [contains] method, nothing
    is dropped and the sequence comes back as it is. *)
Theorem removeSubsets_only_drops :
  forall (N : Type) (contains_method : N -> option (N -> bool)) (ns : list N),
    Further.subsequence ns (Polyfill.removeSubsets contains_method ns) /\
    ((forall other, In other ns -> contains_method other = None) ->
     Polyfill.removeSubsets contains_method ns = ns).
Proof.
  intros N contains_method ns. split.
  - apply filter_from_subsequence.
  - intros Hnone. unfold Polyfill.removeSubsets, Js.array_filter.
    apply filter_from_all. intros i node _.
    apply negb_true_iff. unfold Js.array_some.
    apply some_from_none. intros j other Hin.
    rewrite (Hnone other Hin). apply andb_false_r.
Qed.

Lemma removeSubsets_only_drops_witness :
  Polyfill.removeSubsets (fun _ : Tree.Position => None) [[0]; [1; 0]; [0]] =
  [[0]; [1; 0]; [0]].
Proof.
  exact (proj2 (removeSubsets_only_drops
                  Tree.Position (fun _ => None) [[0]; [1; 0]; [0]])
               (fun _ _ => eq_refl)).
Defined.

(** The nodes that stay are the outermost ones, for distinct nodes with
    the DOM's [contains]. *)
Lemma removeSubsets_kept (N : Type) (parentNode : N -> option N)
      (contains_method : N -> option (N -> bool)) (ns : list N) :
  NoDup ns ->
  (forall other, In other ns ->
                 Tree.standard_contains parentNode contains_method other) ->
  Spec.kept_in_order (Spec.outermost parentNode ns) ns
                     (Polyfill.removeSubsets contains_method ns).
Proof.
  intros Hnodup Hstd.
  unfold Polyfill.removeSubsets, Js.array_filter, Js.array_some.
  apply filter_from_kept. intros i node Hi. simpl.
  rewrite negb_true_iff, <- not_true_iff_false, some_from_spec.
  unfold Spec.outermost. split.
  - intros Hnone [other [Hin [Hne Hanc]]]. apply Hnone.
    destruct (In_nth_error _ _ Hin) as [j Hj].
    exists j, other. split; [exact Hj|]. simpl.
    destruct (Hstd other Hin) as [contains [-> Hc]].
    apply andb_true_iff. split.
    + apply negb_true_iff, Nat.eqb_neq. intros ->. congruence.
    + apply Hc. now right.
  - intros Hout [j [other [Hj Hg]]]. simpl in Hg.
    apply andb_true_iff in Hg. destruct Hg as [Hij Hc].
    apply negb_true_iff, Nat.eqb_neq in Hij.
    assert (Hin : In other ns) by (eapply nth_error_In; exact Hj).
    destruct (Hstd other Hin) as [contains [Heq Hspec]].
    rewrite Heq in Hc. apply Hspec in Hc.
    assert (Hne : other <> node).
    { intros ->. apply Hij.
      apply (proj1 (NoDup_nth_error ns) Hnodup).
      - apply nth_error_Some. congruence.
      - congruence. }
    apply Hout. exists other. split; [exact Hin|]. split; [exact Hne|].
    destruct Hc as [->|Hanc]; [congruence | exact Hanc].
Qed.

(** X17. On distinct nodes with the DOM's [contains], [removeSubsets]
    has nothing left to do on its own result: applying it twice gives
    what applying it once gives, and no node of the result is a
    descendant of another node of the result. *)
Theorem removeSubsets_idempotent :
  forall (N : Type) (parentNode : N -> option N)
         (contains_method : N -> option (N -> bool)) (ns : list N),
    NoDup ns ->
    (forall other, In other ns ->
                   Tree.standard_contains parentNode contains_method other) ->
    Polyfill.removeSubsets contains_method
      (Polyfill.removeSubsets contains_method ns) =
    Polyfill.removeSubsets contains_method ns /\
    (forall a d,
        In a (Polyfill.removeSubsets contains_method ns) ->
        In d (Polyfill.removeSubsets contains_method ns) ->
        a <> d -> ~ Tree.ancestor parentNode a d).
Proof.
  intros N parentNode contains_method ns Hnodup Hstd.
  pose proof (removeSubsets_kept N parentNode contains_method ns Hnodup Hstd) as Hkept.
  set (R := Polyfill.removeSubsets contains_method ns) in *.
  assert (Hin : forall x, In x R -> In x ns /\ Spec.outermost parentNode ns x).
  { intros x Hx. now apply (proj1 (kept_in_order_In _ _ _ Hkept x)). }
  split.
  - assert (HndR : NoDup R) by (eapply kept_in_order_NoDup; eassumption).
    assert (HstdR : forall other, In other R ->
                      Tree.standard_contains parentNode contains_method other).
    { intros other Ho. apply Hstd. now apply Hin. }
    pose proof (removeSubsets_kept N parentNode contains_method R HndR HstdR) as HkeptR.
    apply (kept_in_order_all (Spec.outermost parentNode R) _ _ HkeptR).
    apply Forall_forall. intros x Hx [other [Ho [Hne Hanc]]].
    destruct (Hin x Hx) as [_ Hout]. apply Hout.
    exists other. split; [now apply Hin | now split].
  - intros a d Ha Hd Hne Hanc.
    destruct (Hin d Hd) as [_ Hout]. apply Hout.
    exists a. split; [now apply Hin | now split].
Qed.

Lemma removeSubsets_idempotent_witness :
  Polyfill.removeSubsets Tree.contains_method
    (Polyfill.removeSubsets Tree.contains_method [[0]; [1; 0]; [1]]) =
  Polyfill.removeSubsets Tree.contains_method [[0]; [1; 0]; [1]].
Proof.
  refine (proj1 (removeSubsets_idempotent
                   Tree.Position Tree.parentNode Tree.contains_method
                   [[0]; [1; 0]; [1]] _
                   (fun other _ => position_contains_standard other))).
  repeat constructor; simpl; intuition discriminate.
Defined.

(* ================================================================== *)
(** ** Siblings and parents                                             *)
(* ================================================================== *)

Lemma child_handles_from (up : Tree.Position) (cs : list Node) :
  forall (k : nat) (q : Tree.Position) (e : Node),
    In (q, e) (combine (map (fun i => i :: up) (seq k (length cs))) cs) <->
    exists j, q = (k + j) :: up /\ nth_error cs j = Some e.
Proof.
  induction cs as [|c rest IH]; intros k q e.
  - simpl. split; [tauto|]. intros [j [_ H]]. destruct j; discriminate.
  - cbn [length seq map combine In]. rewrite IH. split.
    + intros [H|[j [Hq Hj]]].
      * injection H as <- <-. exists 0. now rewrite Nat.add_0_r.
      * exists (S j). split; [|exact Hj]. rewrite Hq. f_equal. lia.
    + intros [[|j] [Hq Hj]].
      * left. simpl in Hj. injection Hj as ->. rewrite Hq. now rewrite Nat.add_0_r.
      * right. exists j. split; [|exact Hj]. rewrite Hq. f_equal. lia.
Qed.

Lemma child_handles_In (up : Tree.Position) (cs : list Node)
      (q : Tree.Position) (e : Node) :
  In (q, e) (Handles.child_handles up cs) <->
  exists j, q = j :: up /\ nth_error cs j = Some e.
Proof. unfold Handles.child_handles. now rewrite child_handles_from. Qed.

Lemma siblings_loop (l : list (Tree.Position * Node)) :
  forall siblings : list Tree.Position,
    fold_left (fun siblings child =>
                 if Z.eqb (nodeType (snd child)) 1
                 then (siblings ++ [fst child])%list
                 else siblings) l siblings =
    (siblings ++ map fst (filter (fun child => is_element (snd child)) l))%list.
Proof.
  induction l as [|[q e] rest IH]; intros siblings; simpl.
  - now rewrite app_nil_r.
  - rewrite IH.
    destruct e as [t a cs o|d|k d|cs]; simpl;
      try (destruct k; simpl); try reflexivity.
    now rewrite <- app_assoc.
Qed.

(** X18. For a node object of a tree: [getSiblings] of the polyfill's
    adapter returns the node alone when it has no parent; otherwise
    every node it returns is an element of the tree with the same parent
    as the node, and an element is always among its own siblings. The
    serializer's copy returns the node among all the children of its
    parent, and the element ones of them are the polyfill's answer.
    [equals] holds exactly for the same node. *)
Theorem getSiblings_are_the_element_children :
  forall (root : Node) (i : nat) (up : Tree.Position) (n : Node),
    Handles.node_at root (i :: up) = Some n ->
    Handles.polyfill_getSiblings root [] = [[]] /\
    (forall q, In q (Handles.polyfill_getSiblings root (i :: up)) ->
               Handles.getParent q = Handles.getParent (i :: up) /\
               exists e, Handles.node_at root q = Some e /\ is_element e = true) /\
    (is_element n = true -> In (i :: up) (Handles.polyfill_getSiblings root (i :: up))) /\
    In (i :: up) (Handles.serializer_getSiblings root (i :: up)) /\
    Handles.polyfill_getSiblings root (i :: up) =
      filter (fun q => match Handles.node_at root q with
                       | Some e => is_element e
                       | None => false
                       end)
             (Handles.serializer_getSiblings root (i :: up)) /\
    (forall a b, Handles.equals a b = true <-> a = b).
Proof.
  intros root i up n Hn.
  split; [reflexivity|].
  unfold Handles.polyfill_getSiblings, Handles.serializer_getSiblings.
  cbn [Tree.parentNode]. cbn [Handles.node_at] in Hn.
  destruct (Handles.node_at root up) as [parent|] eqn:Hup; [|discriminate].
  destruct (childNodes parent) as [cs|] eqn:Hcs; [|discriminate].
  rewrite siblings_loop. cbn [app].
  assert (Hat : forall j e, nth_error cs j = Some e ->
                            Handles.node_at root (j :: up) = Some e).
  { intros j e Hj. cbn [Handles.node_at]. now rewrite Hup, Hcs. }
  split; [|split; [|split; [|split]]].
  - intros q Hq. apply in_map_iff in Hq. destruct Hq as [[q' e] [<- Hin]].
    apply filter_In in Hin. destruct Hin as [Hin He].
    apply child_handles_In in Hin. destruct Hin as [j [-> Hj]].
    split; [reflexivity|]. exists e. split; [now apply Hat | exact He].
  - intros He. apply in_map_iff. exists (i :: up, n). split; [reflexivity|].
    apply filter_In. split; [|exact He].
    apply child_handles_In. now exists i.
  - apply in_map_iff. exists (i :: up, n). split; [reflexivity|].
    apply child_handles_In. now exists i.
  - assert (Hgen : forall l : list (Tree.Position * Node),
               (forall q e, In (q, e) l -> Handles.node_at root q = Some e) ->
               map fst (filter (fun child => is_element (snd child)) l) =
               filter (fun q => match Handles.node_at root q with
                                | Some e => is_element e
                                | None => false
                                end) (map fst l)).
    { induction l as [|[q e] rest IH]; intros Hl; [reflexivity|].
      cbn [filter map fst snd].
      rewrite (Hl q e (or_introl eq_refl)).
      assert (Hrest := IH (fun q' e' H' => Hl q' e' (or_intror H'))).
      destruct (is_element e); cbn [map fst]; now rewrite Hrest. }
    apply Hgen. intros q e Hin.
    apply child_handles_In in Hin. destruct Hin as [j [-> Hj]]. now apply Hat.
  - intros a b. apply same_position_eq.
Qed.

Lemma getSiblings_witness :
  In [0; 0; 0]
     (Handles.polyfill_getSiblings Spec.sample_document [0; 0; 0]) /\
  Handles.polyfill_getSiblings Spec.sample_document [0; 0; 0; 0] = [].
Proof.
  split.
  - exact (proj1 (proj2 (proj2 (getSiblings_are_the_element_children
                                  Spec.sample_document 0 [0; 0]
                                  Spec.sample_script eq_refl))) eq_refl).
  - reflexivity.
Defined.

(* ================================================================== *)
(** ** A fresh element                                                  *)
(* ================================================================== *)

(** X19. An element made by the patched [createElement] has no attribute
    and no child, whatever its name; its [id], [textContent] and
    [innerHTML] read as the empty string and its [outerHTML] as its
    serialization; [type] is a property of it, reading as the empty
    string, exactly when the name is [script] in any letter case. *)
Theorem created_element_reads_empty :
  forall (toString : Node -> string) (name : string),
    (forall a, getAttribute (Polyfill.createElement name) a = None) /\
    childNodes (Polyfill.createElement name) = Some [] /\
    Polyfill.get_property toString (Polyfill.createElement name) "id" =
      Some (Js.str EmptyString) /\
    Polyfill.get_property toString (Polyfill.createElement name) "textContent" =
      Some (Js.str EmptyString) /\
    Polyfill.get_property toString (Polyfill.createElement name) "innerHTML" =
      Some (Js.str EmptyString) /\
    Polyfill.get_property toString (Polyfill.createElement name) "outerHTML" =
      Some (Js.str (toString (Polyfill.createElement name))) /\
    Polyfill.get_property toString (Polyfill.createElement name) "type" =
      (if String.eqb (Js.toLowerCase name) "script"
       then Some (Js.str EmptyString) else None).
Proof.
  intros toString name.
  unfold Polyfill.createElement, origCreateElement.
  rewrite enhanceElement_explicit.
  destruct (String.eqb (Js.toLowerCase name) "script"); repeat split.
Qed.

(* ================================================================== *)
(** ** Languages and modes                                              *)
(* ================================================================== *)

